(** * The Antrea traceflow plugin for Octant

    A shallow embedding of [cmd/traceflow-plugin/main.go]: the payload
    lookups, the action handler with its two actions, the content handler
    and the row builder, over an explicit process state that holds the
    plugin's stored graph, the cluster-state store and the log of the calls
    issued against that store.  [log.Fatal] is modelled as the end of the
    process. *)

From stdpp Require Import base strings list gmap fin_maps.

(** ** Go values: errors and results *)

(** The kinds of failure of the cluster-state store. *)
Inductive StoreErr :=
| ConflictError
| NotFoundError
| TransportError.

(** A non-nil Go [error] value.  A nilable [error] is [option Err]. *)
Inductive Err :=
| ErrPayload (key : string)
    (* action.Payload.String: the key is absent or its value is no string *)
| ErrWrap (msg : string) (inner : Err)
    (* fmt.Errorf with the verb %w: the text before the verb, and the cause *)
| ErrString (msg : string)
    (* fmt.Errorf without %w *)
| ErrStore (e : StoreErr).

(** A Go result pair [(T, error)]: the value when the error is nil. *)
Inductive result (T : Type) :=
| Ok (t : T)
| Fail (err : Err).
Arguments Ok {T} t.
Arguments Fail {T} err.

(** ** The action payload: [map[string]interface{}] *)

Inductive PayloadValue :=
| VString (s : string)
| VNumber (n : Z)
| VBool (b : bool)
| VNull.

Record ActionRequest := { Payload : gmap string PayloadValue }.

(** [Payload.String(key)]: the type assertion [p[key].(string)]. *)
Definition Payload_String (p : gmap string PayloadValue) (key : string)
  : result string :=
  match p !! key with
  | Some (VString s) => Ok s
  | _ => Fail (ErrPayload key)
  end.

(** ** The Traceflow resource *)

Record ObjectMeta := { Name : string }.

(** Modelled from the spec: the declaration of [v1.Packet] is not among the
    sources.  A value is represented by the fields that differ from their
    zero value, so the zero value [v1.Packet{}] is the empty map. *)
Record Packet := { packetFields : gmap string string }.

(** Modelled from the spec: the declaration of [v1.Status] is not among the
    sources; it is opaque to the plugin and written by the cluster only.
    Represented as [Packet] is: [v1.Status{}] is the empty map. *)
Record Status := { statusFields : gmap string string }.

Record Traceflow := {
  TfObjectMeta : ObjectMeta;
  SrcNamespace : string;
  SrcPod : string;
  DstNamespace : string;
  DstPod : string;
  DstService : string;
  RoundID : string;
  TfPacket : Packet;
  TfStatus : Status
}.

(** [tf.Name], the field promoted from the embedded [ObjectMeta]. *)
Definition tfName (tf : Traceflow) : string := Name (TfObjectMeta tf).

(** ** The cluster-state store *)

(** Modelled from the spec: the generated clientset
    ([pkg/client/clientset/versioned]) and the API server behind it are not
    among the sources.  Section 6 of the specification gives the store three
    calls, create, get and list; sections 4.1 and 7 give their failures: a
    conflict when the name exists, a lookup miss when it does not, and a
    transport failure when the store cannot be reached.  [list] returns the
    entries in the store's order. *)
Record Store := {
  reachable : bool;
  entries : list Traceflow
}.

Definition hasName (name : string) (tf : Traceflow) : bool :=
  bool_decide (tfName tf = name).

Definition store_create (st : Store) (tf : Traceflow)
  : Store * result Traceflow :=
  if negb (reachable st) then (st, Fail (ErrStore TransportError))
  else if existsb (hasName (tfName tf)) (entries st)
       then (st, Fail (ErrStore ConflictError))
       else ({| reachable := reachable st; entries := entries st ++ [tf] |},
             Ok tf).

Definition store_get (st : Store) (name : string) : result Traceflow :=
  if negb (reachable st) then Fail (ErrStore TransportError)
  else match find (hasName name) (entries st) with
       | Some tf => Ok tf
       | None => Fail (ErrStore NotFoundError)
       end.

Definition store_list (st : Store) : result (list Traceflow) :=
  if negb (reachable st) then Fail (ErrStore TransportError)
  else Ok (entries st).

(** ** The process: plugin state, store, and the calls issued *)

Inductive ApiCall :=
| CallCreate (tf : Traceflow)
| CallGet (name : string)
| CallList.

Record Proc := {
  graph : string;          (* a.graph *)
  cluster : Store;         (* what a.client and the global client reach *)
  calls : list ApiCall     (* the calls issued so far, oldest first *)
}.

(** A handler either returns to the host or ends the process ([log.Fatal]
    writes the message and calls [os.Exit(1)]). *)
Inductive outcome (A : Type) :=
| Returned (a : A) (s : Proc)
| Exited (msg : string) (err : Err) (s : Proc).
Arguments Returned {A} a s.
Arguments Exited {A} msg err s.

Definition M (A : Type) : Type := Proc -> outcome A.

Definition ret {A} (a : A) : M A := fun s => Returned a s.

Definition bind {A B} (m : M A) (k : A -> M B) : M B :=
  fun s => match m s with
           | Returned a s' => k a s'
           | Exited msg err s' => Exited msg err s'
           end.

Notation "'do' x <- m ; k" := (bind m (fun x => k))
  (at level 10, x name, m at level 100, k at level 200).

(** [log.Fatal(err)] and [log.Fatalf(msg + " %v", err)]. *)
Definition log_Fatalf {A} (msg : string) (err : Err) : M A :=
  fun s => Exited msg err s.
Definition log_Fatal {A} (err : Err) : M A := log_Fatalf "" err.

Definition issue (c : ApiCall) (s : Proc) (st : Store) : Proc :=
  {| graph := graph s; cluster := st; calls := calls s ++ [c] |}.

Definition Traceflows_Create (tf : Traceflow) : M (result Traceflow) :=
  fun s => let '(st, r) := store_create (cluster s) tf in
           Returned r (issue (CallCreate tf) s st).

Definition Traceflows_Get (name : string) : M (result Traceflow) :=
  fun s => Returned (store_get (cluster s) name)
                    (issue (CallGet name) s (cluster s)).

Definition Traceflows_List : M (result (list Traceflow)) :=
  fun s => Returned (store_list (cluster s)) (issue CallList s (cluster s)).

Definition set_graph (dot : string) : M unit :=
  fun s => Returned tt {| graph := dot; cluster := cluster s; calls := calls s |}.

Definition get_graph : M string := fun s => Returned (graph s) s.

(** ** The graph library

    [goccy/go-graphviz] binds cgraph.  A graph holds its nodes by name:
    [CreateNode] is cgraph's [agnode] with the create flag, which returns the
    node of that name when the graph has one and adds it otherwise;
    [CreateEdge] is [agedge] with the create flag, keyed by the edge's name
    and end points.  A node is referred to by its name, an edge by its
    position among the graph's edges.  None of the calls fails in this
    model; they keep Go's [(value, error)] shape so that the handler reads
    as the source does. *)
Module graphviz.

Record Edge := {
  edgeName : string;
  tail : string;
  head : string;
  label : string
}.

Record Graph := {
  nodes : list string;
  edges : list Edge
}.

(** [graphviz.New().Graph()]: a fresh, empty directed graph. *)
Definition New : Graph := {| nodes := []; edges := [] |}.

Definition CreateNode (name : string) (g : Graph) : Graph * result string :=
  if bool_decide (name ∈ nodes g) then (g, Ok name)
  else ({| nodes := nodes g ++ [name]; edges := edges g |}, Ok name).

Definition isEdge (name start end_ : string) (e : Edge) : Prop :=
  edgeName e = name ∧ tail e = start ∧ head e = end_.

#[global] Instance isEdge_dec name start end_ e :
  Decision (isEdge name start end_ e).
Proof. unfold isEdge. apply _. Defined.

Definition CreateEdge (name start end_ : string) (g : Graph)
  : Graph * result nat :=
  match list_find (isEdge name start end_) (edges g) with
  | Some (i, _) => (g, Ok i)
  | None =>
      ({| nodes := nodes g;
          edges := edges g ++
            [{| edgeName := name; tail := start; head := end_; label := "" |}] |},
       Ok (length (edges g)))
  end.

Definition withLabel (v : string) (e : Edge) : Edge :=
  {| edgeName := edgeName e; tail := tail e; head := head e; label := v |}.

(** [e.SetLabel(v)], through the edge's handle. *)
Definition SetLabel (e : nat) (v : string) (g : Graph) : Graph :=
  {| nodes := nodes g; edges := alter (withLabel v) e (edges g) |}.

(** [graph.Close()]. *)
Definition Close (g : Graph) : option Err := None.

End graphviz.

(** ** Octant's view components *)

Inductive FormField :=
| FormFieldText (label name value : string)
| FormFieldHidden (name value : string).

Record Action := {
  ActionName : string;
  ActionTitle : string;
  ActionForm : list FormField
}.

(** [component.WidthFull], the only width the plugin uses. *)
Inductive Width := WidthFull.

#[warnings="-register-all"]
Inductive Component :=
| Text (s : string)
| Link (title text ref : string)
| Graphviz (dot : string)
| Card (title : string) (body : option Component) (actions : list Action)
| FlexLayoutComponent (title : string) (sections : list (list (Width * Component)))
| Table (title placeholder : string) (cols : list string)
        (rows : list (gmap string Component)).

(** [component.TableRow] is [map[string]component.Component]. *)
Abbreviation TableRow := (gmap string Component).

Definition NewText (s : string) : Component := Text s.
Definition NewLink (title text ref : string) : Component := Link title text ref.
Definition NewGraphviz (dot : string) : Component := Graphviz dot.
Definition NewCard (title : string) : Component := Card title None [].

Definition SetBody (body : Component) (card : Component) : Component :=
  match card with
  | Card title _ actions => Card title (Some body) actions
  | c => c
  end.

Definition AddAction (action : Action) (card : Component) : Component :=
  match card with
  | Card title body actions => Card title body (actions ++ [action])
  | c => c
  end.

Definition NewTableCols (names : list string) : list string := names.

Definition NewTableWithRows (title placeholder : string) (cols : list string)
  (rows : list TableRow) : Component :=
  Table title placeholder cols rows.

(** [pkg/view/flexlayout]: a layout owns its sections; [AddSection] hands
    out a reference to the new section (here its position) and [Add] appends
    a member through that reference. *)
Module flexlayout.

Record FlexLayout := { sections : list (list (Width * Component)) }.

Definition New : FlexLayout := {| sections := [] |}.

Definition AddSection (fl : FlexLayout) : FlexLayout * nat :=
  ({| sections := sections fl ++ [[]] |}, length (sections fl)).

Definition Add (section : nat) (view : Component) (width : Width)
  (fl : FlexLayout) : FlexLayout * option Err :=
  ({| sections := alter (fun members => members ++ [(width, view)])
                        section (sections fl) |}, None).

Definition ToComponent (title : string) (fl : FlexLayout) : Component :=
  FlexLayoutComponent title (sections fl).

End flexlayout.

(** [icon.Overview]. *)
Inductive Icon := IconOverview.

Record ContentResponse := {
  Title : list Component;
  Components : list Component;
  IconName : option Icon;
  IconSource : option Icon
}.

(** [component.ContentResponse{}]. *)
Definition ContentResponse_zero : ContentResponse :=
  {| Title := []; Components := []; IconName := None; IconSource := None |}.

Definition TitleFromString (s : string) : list Component := [NewText s].

(** ** The plugin *)

Definition pluginName : string := "traceflowPlugin".
Definition addTfAction : string := "traceflowPlugin/addTf".
Definition showGraphAction : string := "traceflowPlugin/showGraphAction".

Definition tfNameCol : string := "Trace".
Definition srcNamespaceCol : string := "Source Namespace".
Definition srcPodCol : string := "Source Pod".
Definition dstNamespaceCol : string := "Destination Namespace".
Definition dstPodCol : string := "Destination Pod".
Definition crdCol : string := "Detailed Information".

(** [value, err := request.Payload.String(key); if err != nil { return
    fmt.Errorf(msg + "%w", err) }], followed by the rest of the handler. *)
Notation "'let_string' x := p @ key 'or' msg 'in' k" :=
  (match Payload_String p key with
   | Fail err => ret (Some (ErrWrap msg err))
   | Ok x => k
   end)
  (at level 10, x name, p at level 9, key at level 9, msg at level 9,
   k at level 200).

(** The graph of the [showGraphAction] case, from [graphviz.New()] to
    [e.SetLabel("e")].  The error of a failed step is handed to
    [actionHandler], which passes it to [log.Fatal] as the source does after
    each step. *)
Definition buildGraph (name : string) : result graphviz.Graph :=
  let graph := graphviz.New in
  match graphviz.CreateNode name graph with
  | (_, Fail err) => Fail err
  | (graph, Ok n) =>
  match graphviz.CreateNode "m" graph with
  | (_, Fail err) => Fail err
  | (graph, Ok m) =>
  match graphviz.CreateEdge "e" n m graph with
  | (_, Fail err) => Fail err
  | (graph, Ok e) => Ok (graphviz.SetLabel e "e" graph)
  end end end.

(** The resource that the [addTfAction] case creates. *)
Definition newTraceflow (name fromNamespace fromPod toNamespace toPod : string)
  : Traceflow :=
  {| TfObjectMeta := {| Name := name |};
     SrcNamespace := fromNamespace;
     SrcPod := fromPod;
     DstNamespace := toNamespace;
     DstPod := toPod;
     DstService := "";
     RoundID := "";
     TfPacket := {| packetFields := ∅ |};
     TfStatus := {| statusFields := ∅ |} |}.

Section Plugin.

(** [g.Render(graph, format, &buf)] followed by [buf.String()]: the text the
    layout engine writes for a graph, or its error.  The engine is outside
    the program; every result below holds for each such function. *)
Variable Render : graphviz.Graph -> string -> result string.

Definition actionHandler (request : ActionRequest) : M (option Err) :=
  let p := Payload request in
  match Payload_String p "action" with
  | Fail err => ret (Some (ErrWrap "unable to get input at string: " err))
  | Ok actionName =>
    if bool_decide (actionName = addTfAction) then
      let_string name := p @ "name" or "unable to get name at string : " in
      let_string fromNamespace := p @ "fromNamespace"
        or "unable to get fromNamespace at string : " in
      let_string fromPod := p @ "fromPod"
        or "unable to get fromPod at string : " in
      let_string toNamespace := p @ "toNamespace"
        or "unable to get toNamespace at string : " in
      let_string toPod := p @ "toPod"
        or "unable to get toPod at string : " in
      do r <- Traceflows_Create
                (newTraceflow name fromNamespace fromPod toNamespace toPod);
      match r with
      | Fail err => ret (Some err)
      | Ok _ => ret None
      end
    else if bool_decide (actionName = showGraphAction) then
      let_string name := p @ "name" or "unable to get name at string : " in
      do _ <- Traceflows_Get name;
      match buildGraph name with
      | Fail err => log_Fatal err
      | Ok graph =>
      match Render graph "dot" with
      | Fail err => log_Fatal err
      | Ok buf =>
          do _ <- set_graph buf;
          match graphviz.Close graph with
          | Some err => log_Fatal err
          | None => ret None
          end
      end end
    else
      ret (Some (ErrString ("recieved action request for " +:+ pluginName +:+
                            ", but no handler defined")))
  end.

(** One row of the trace table. *)
Definition tfRow (tf : Traceflow) : TableRow :=
  {[ tfNameCol := NewText (tfName tf);
     srcNamespaceCol := NewText (SrcNamespace tf);
     srcPodCol := NewText (SrcPod tf);
     dstNamespaceCol := NewText (DstNamespace tf);
     dstPodCol := NewText (DstPod tf);
     crdCol := NewLink (tfName tf) (tfName tf)
       ("/cluster-overview/custom-resources/traceflows.antrea.tanzu.vmware.com/"
        +:+ tfName tf) ]}.

(** The loop of [getTfRows]: [tfRows = append(tfRows, row)] for each item. *)
Fixpoint appendRows (tfRows : list TableRow) (items : list Traceflow)
  : list TableRow :=
  match items with
  | [] => tfRows
  | tf :: items => appendRows (tfRows ++ [tfRow tf]) items
  end.

Definition getTfRows : M (list TableRow) :=
  do tfs <- Traceflows_List;
  match tfs with
  | Fail err => log_Fatalf "Failed to get Traceflows " err
  | Ok items => ret (appendRows [] items)
  end.

(** The columns of the trace table, in display order. *)
Definition tfCols : list string :=
  NewTableCols [tfNameCol; srcNamespaceCol; srcPodCol;
                dstNamespaceCol; dstPodCol; crdCol].

Definition addTfForm : list FormField :=
  [ FormFieldText "name" "name" "";
    FormFieldText "fromNamespace" "fromNamespace" "";
    FormFieldText "fromPod" "fromPod" "";
    FormFieldText "toNamespace" "toNamespace" "";
    FormFieldText "toPod" "toPod" "";
    FormFieldHidden "action" addTfAction ].

Definition graphForm : list FormField :=
  [ FormFieldText "name" "name" "";
    FormFieldHidden "action" showGraphAction ].

Definition traceflowHandler : M (ContentResponse * option Err) :=
  let layout := flexlayout.New in
  let card := NewCard "Antrea Traceflow" in
  let addTf := {| ActionName := "Start New Trace";
                  ActionTitle := "Start New Trace";
                  ActionForm := addTfForm |} in
  let genGraph := {| ActionName := "Generate Trace Graph";
                     ActionTitle := "Generate Trace Graph";
                     ActionForm := graphForm |} in
  let card := SetBody (NewText "") card in
  let card := AddAction addTf card in
  let card := AddAction genGraph card in
  let graphCard := NewCard "Antrea Traceflow Graph" in
  do a_graph <- get_graph;
  let graphCard :=
    if bool_decide (a_graph ≠ "")
    then SetBody (NewGraphviz a_graph) graphCard
    else SetBody (NewText "") graphCard in
  let '(layout, listSection) := flexlayout.AddSection layout in
  match flexlayout.Add listSection card WidthFull layout with
  | (_, Some err) =>
      ret (ContentResponse_zero,
           Some (ErrWrap "error adding card to section: " err))
  | (layout, None) =>
  let added :=
    if bool_decide (a_graph ≠ "")
    then flexlayout.Add listSection graphCard WidthFull layout
    else (layout, None) in
  match added with
  | (_, Some err) =>
      ret (ContentResponse_zero,
           Some (ErrWrap "error adding graphCard to section: " err))
  | (layout, None) =>
  do rows <- getTfRows;
  let tfTable := NewTableWithRows "Trace List" "" tfCols rows in
  ret ({| Title := TitleFromString "Antrea Traceflow";
          Components := [flexlayout.ToComponent "Antrea Traceflow" layout;
                         tfTable];
          IconName := Some IconOverview;
          IconSource := Some IconOverview |}, None)
  end end.

End Plugin.

(** ** Reading an outcome *)

(** The state in which a handler returned or the process ended. *)
Definition final {A} (o : outcome A) : Proc :=
  match o with
  | Returned _ s => s
  | Exited _ _ s => s
  end.

(** The calls issued against the store between [s] and the outcome. *)
Definition issued {A} (s : Proc) (o : outcome A) : list ApiCall :=
  drop (length (calls s)) (calls (final o)).

(** The error kinds of the specification, read off a Go error: a failed
    payload lookup is a validation failure, a wrapped error has the kind of
    its cause ([errors.Unwrap]). *)
Inductive ErrorKind :=
| KValidation
| KConflict
| KNotFound
| KTransport.

Fixpoint kindOf (err : Err) : option ErrorKind :=
  match err with
  | ErrPayload _ => Some KValidation
  | ErrWrap _ inner => kindOf inner
  | ErrString _ => None
  | ErrStore ConflictError => Some KConflict
  | ErrStore NotFoundError => Some KNotFound
  | ErrStore TransportError => Some KTransport
  end.

(** What a handler hands back to the host: [Some e] when it returned the
    error [e], [None] when it returned nil or the process ended. *)
Definition returnedError (o : outcome (option Err)) : option Err :=
  match o with
  | Returned e _ => e
  | Exited _ _ _ => None
  end.

(** The base path of a trace's detail page. *)
Definition basePath : string :=
  "/cluster-overview/custom-resources/traceflows.antrea.tanzu.vmware.com".

(** The form card of the content page. *)
Definition formCard : Component :=
  Card "Antrea Traceflow" (Some (Text ""))
    [ {| ActionName := "Start New Trace"; ActionTitle := "Start New Trace";
         ActionForm := addTfForm |};
      {| ActionName := "Generate Trace Graph";
         ActionTitle := "Generate Trace Graph";
         ActionForm := graphForm |} ].

(** The graph card, for a stored graph text. *)
Definition graphCardOf (dot : string) : Component :=
  Card "Antrea Traceflow Graph" (Some (Graphviz dot)) [].

(** The views laid out in the response, section by section. *)
Definition laidOut (resp : ContentResponse) : list Component :=
  c ← Components resp;
  match c with
  | FlexLayoutComponent _ sections => snd <$> concat sections
  | _ => []
  end.

Definition isGraphCard (c : Component) : bool :=
  match c with
  | Card title _ _ => bool_decide (title = "Antrea Traceflow Graph")
  | _ => false
  end.

Definition includesGraphCard (resp : ContentResponse) : bool :=
  existsb isGraphCard (laidOut resp).

(** ** Sample states for the examples *)

Definition tf_t1 : Traceflow :=
  {| TfObjectMeta := {| Name := "t1" |};
     SrcNamespace := "default"; SrcPod := "pod-a";
     DstNamespace := "default"; DstPod := "pod-b";
     DstService := ""; RoundID := "";
     TfPacket := {| packetFields := ∅ |};
     TfStatus := {| statusFields := {[ "phase" := "Succeeded" ]} |} |}.

(** The payload that the form "Start New Trace" submits. *)
Definition addTfRequest (name fromNamespace fromPod toNamespace toPod : string)
  : ActionRequest :=
  {| Payload := {[ "name" := VString name;
                   "fromNamespace" := VString fromNamespace;
                   "fromPod" := VString fromPod;
                   "toNamespace" := VString toNamespace;
                   "toPod" := VString toPod;
                   "action" := VString addTfAction ]} |}.

(** The payload that the form "Generate Trace Graph" submits. *)
Definition showGraphRequest (name : string) : ActionRequest :=
  {| Payload := {[ "name" := VString name;
                   "action" := VString showGraphAction ]} |}.

(** A renderer for the examples: the node names, then the edges. *)
Definition sampleRender (g : graphviz.Graph) (format : string)
  : result string :=
  Ok (String.concat " "
        (graphviz.nodes g ++
         ((λ e, graphviz.tail e +:+ "->" +:+ graphviz.head e) <$>
            graphviz.edges g))).

(** A running plugin in front of an empty store. *)
Definition procEmpty : Proc :=
  {| graph := ""; cluster := {| reachable := true; entries := [] |};
     calls := [] |}.

(** A running plugin in front of a store that holds [t1]. *)
Definition procOne : Proc :=
  {| graph := ""; cluster := {| reachable := true; entries := [tf_t1] |};
     calls := [] |}.

(** A running plugin whose store cannot be reached. *)
Definition procDown : Proc :=
  {| graph := ""; cluster := {| reachable := false; entries := [tf_t1] |};
     calls := [] |}.

(** A submit whose source pod is the empty string. *)
Definition emptyPodRequest : ActionRequest :=
  addTfRequest "t1" "default" "" "default" "pod-b".

(** A full submit for the trace [t1]. *)
Definition t1Request : ActionRequest :=
  addTfRequest "t1" "default" "pod-a" "default" "pod-b".

(** A request for an action that the plugin does not register. *)
Definition deleteRequest : ActionRequest :=
  {| Payload := {[ "name" := VString "t1";
                   "action" := VString "traceflowPlugin/deleteTf" ]} |}.

(** A submit whose payload has no [toNamespace]. *)
Definition noToNamespaceRequest : ActionRequest :=
  {| Payload := {[ "name" := VString "t1";
                   "fromNamespace" := VString "default";
                   "fromPod" := VString "pod-a";
                   "toPod" := VString "pod-b";
                   "action" := VString addTfAction ]} |}.

(** ** Start-up and registration *)

Definition kubeConfig : string := "KUBECONFIG".

(** [newTraceflowPlugin] either hands the plugin to [main] or ends the
    process through [log.Fatalf]. *)
Inductive startup :=
| Started (s : Proc)
| StartFailed (msg : string) (err : Err).

Section Startup.

(** The cluster configuration, the environment, and the two constructors of
    client-go and of the generated clientset are outside the program. *)
Variable Config : Type.
Variable Getenv : string -> string.
Variable BuildConfigFromFlags : string -> string -> result Config.
Variable NewForConfig : Config -> result Store.

Definition newTraceflowPlugin : startup :=
  match BuildConfigFromFlags "" (Getenv kubeConfig) with
  | Fail err => StartFailed "Failed to build kubeConfig " err
  | Ok config =>
  match NewForConfig config with
  | Fail err =>
      StartFailed
        "Failed to create K8s client for antrea-traceflow-octant-plugin " err
  | Ok client => Started {| graph := ""; cluster := client; calls := [] |}
  end end.

End Startup.

(** [plugin.Capabilities], with the two fields that [main] sets. *)
Record Capabilities := {
  ActionNames : list string;
  IsModule : bool
}.

(** The capabilities that [main] registers the plugin with. *)
Definition capabilities : Capabilities :=
  {| ActionNames := [addTfAction; showGraphAction]; IsModule := true |}.

(** ** Forms and payloads *)

(** The keys that the [addTfAction] case looks up, in the order of the
    lookups. *)
Definition addTfKeys : list string :=
  ["name"; "fromNamespace"; "fromPod"; "toNamespace"; "toPod"].

(** The error of the default case of [actionHandler]. *)
Definition noHandlerError : Err :=
  ErrString
    "recieved action request for traceflowPlugin, but no handler defined".

(** A payload answers a form when it has a string for every text field and
    the fixed value for every hidden field, under the field's name. *)
Definition answersField (p : gmap string PayloadValue) (f : FormField)
  : Prop :=
  match f with
  | FormFieldText _ name _ => ∃ v, Payload_String p name = Ok v
  | FormFieldHidden name value => Payload_String p name = Ok value
  end.

Definition answers (form : list FormField) (p : gmap string PayloadValue)
  : Prop :=
  Forall (answersField p) form.

(** The forms carried by the cards of a response. *)
Definition formsOf (c : Component) : list (list FormField) :=
  match c with
  | Card _ _ actions => ActionForm <$> actions
  | _ => []
  end.

(** The outcome of a handler without the state it ends in. *)
Definition answer {A} (o : outcome A) : (A + string * Err) :=
  match o with
  | Returned a _ => inl a
  | Exited msg err _ => inr (msg, err)
  end.

(** Whether the process ended. *)
Definition exited {A} (o : outcome A) : bool :=
  match o with
  | Returned _ _ => false
  | Exited _ _ _ => true
  end.

(** A payload with a key that no handler reads, and a non-string name. *)
Definition noisyRequest : ActionRequest :=
  {| Payload := <[ "namespace" := VString "kube-system" ]>
                  (Payload (addTfRequest "t1" "default" "pod-a" "default" "pod-b")) |}.

Definition numericNameRequest : ActionRequest :=
  {| Payload := {[ "name" := VNumber 7;
                   "action" := VString showGraphAction ]} |}.

(** A request without an action. *)
Definition noActionRequest : ActionRequest :=
  {| Payload := {[ "name" := VString "t1" ]} |}.

(** A running plugin that holds a rendered graph. *)
Definition procGraph : Proc :=
  {| graph := "t1 m t1->m";
     cluster := {| reachable := true; entries := [tf_t1] |};
     calls := [CallGet "t1"] |}.

(** A renderer that fails, for the examples. *)
Definition failingRender (g : graphviz.Graph) (format : string)
  : result string :=
  Fail (ErrString "no layout engine").

(** A cluster configuration for the examples: the path of the file. *)
Definition sampleBuildConfig (masterUrl kubeconfigPath : string)
  : result string :=
  if bool_decide (kubeconfigPath = "") then Fail (ErrString "no configuration")
  else Ok kubeconfigPath.

Definition sampleNewForConfig (config : string) : result Store :=
  Ok {| reachable := true; entries := [tf_t1] |}.

Definition sampleGetenv (key : string) : string :=
  if bool_decide (key = "KUBECONFIG") then "/root/.kube/config" else "".

(** Membership in a list that is written out. *)
Ltac in_list :=
  repeat first [apply list_elem_of_here | apply list_elem_of_further].

(** ** Rows of the trace table *)

Lemma appendRows_app (items : list Traceflow) :
  ∀ tfRows, appendRows tfRows items = tfRows ++ (tfRow <$> items).
Proof.
  induction items as [|tf items IH]; intros tfRows; simpl.
  - by rewrite app_nil_r.
  - by rewrite IH, <- app_assoc.
Qed.

Lemma getTfRows_ok (s : Proc) (items : list Traceflow) :
  store_list (cluster s) = Ok items →
  getTfRows s = Returned (tfRow <$> items) (issue CallList s (cluster s)).
Proof.
  intros Hl. unfold getTfRows, bind, Traceflows_List. rewrite Hl.
  unfold ret. by rewrite appendRows_app.
Qed.

Lemma getTfRows_fail (s : Proc) (err : Err) :
  store_list (cluster s) = Fail err →
  getTfRows s =
    Exited "Failed to get Traceflows " err (issue CallList s (cluster s)).
Proof.
  intros Hl. unfold getTfRows, bind, Traceflows_List. by rewrite Hl.
Qed.

Lemma tfRow_columns (tf : Traceflow) :
  (λ col, tfRow tf !! col) <$> tfCols =
    [ Some (Text (tfName tf)); Some (Text (SrcNamespace tf));
      Some (Text (SrcPod tf)); Some (Text (DstNamespace tf));
      Some (Text (DstPod tf));
      Some (Link (tfName tf) (tfName tf) (basePath +:+ "/" +:+ tfName tf)) ].
Proof. reflexivity. Qed.

Lemma tfRow_dom (tf : Traceflow) :
  dom (tfRow tf) = list_to_set tfCols.
Proof.
  unfold tfRow, tfCols, NewTableCols. rewrite !dom_insert_L, dom_singleton_L.
  simpl. set_solver.
Qed.

(** ** The row builder and the content page *)

(** C6: when the store's list call returns its entities, [getTfRows] returns
    one row per entity, in the store's order, and the row of an entity read
    in column order holds the entity's name, source namespace, source pod,
    destination namespace and destination pod as texts, then a link whose
    title and text are the entity's name and whose target is the base path,
    a slash and the name; the row has these six columns and no other. *)
Theorem getTfRows_rows (s : Proc) (items : list Traceflow) :
  store_list (cluster s) = Ok items →
  ∃ rows,
    getTfRows s = Returned rows (issue CallList s (cluster s)) ∧
    length rows = length items ∧
    ∀ i tf, items !! i = Some tf →
      ∃ row, rows !! i = Some row ∧
        (λ col, row !! col) <$> tfCols =
          [ Some (Text (tfName tf)); Some (Text (SrcNamespace tf));
            Some (Text (SrcPod tf)); Some (Text (DstNamespace tf));
            Some (Text (DstPod tf));
            Some (Link (tfName tf) (tfName tf)
                       (basePath +:+ "/" +:+ tfName tf)) ] ∧
        dom row = list_to_set tfCols.
Proof.
  intros Hl. exists (tfRow <$> items). split; [by apply getTfRows_ok|].
  split; [by rewrite length_fmap|].
  intros i tf Hi. exists (tfRow tf). split.
  - by rewrite list_lookup_fmap, Hi.
  - split; [apply tfRow_columns | apply tfRow_dom].
Qed.

Lemma getTfRows_rows_witness :
  store_list (cluster procOne) = Ok [tf_t1] ∧
  ∃ rows,
    getTfRows procOne = Returned rows (issue CallList procOne (cluster procOne)) ∧
    length rows = 1 ∧
    ∀ i tf, [tf_t1] !! i = Some tf →
      ∃ row, rows !! i = Some row ∧
        (λ col, row !! col) <$> tfCols =
          [ Some (Text (tfName tf)); Some (Text (SrcNamespace tf));
            Some (Text (SrcPod tf)); Some (Text (DstNamespace tf));
            Some (Text (DstPod tf));
            Some (Link (tfName tf) (tfName tf)
                       (basePath +:+ "/" +:+ tfName tf)) ] ∧
        dom row = list_to_set tfCols.
Proof.
  split; [reflexivity|]. apply (getTfRows_rows procOne [tf_t1]). reflexivity.
Defined.

Example getTfRows_t1_link :
  (λ row : TableRow, row !! crdCol) <$>
    (match getTfRows procOne with Returned rows _ => rows | _ => [] end) =
  [ Some (Link "t1" "t1"
      "/cluster-overview/custom-resources/traceflows.antrea.tanzu.vmware.com/t1") ].
Proof. reflexivity. Qed.

(** C2, as the code has it: when the store's list call fails, [getTfRows]
    issues that one call, logs the failure and ends the process; nothing is
    returned to the caller, and a render of the content page ends the same
    way. *)
Theorem getTfRows_list_failure_is_fatal (s : Proc) (err : Err) :
  store_list (cluster s) = Fail err →
  getTfRows s =
    Exited "Failed to get Traceflows " err (issue CallList s (cluster s)) ∧
  traceflowHandler s =
    Exited "Failed to get Traceflows " err (issue CallList s (cluster s)).
Proof.
  intros Hl. split; [by apply getTfRows_fail|].
  unfold traceflowHandler, bind, get_graph. simpl.
  case_bool_decide; simpl; by rewrite (getTfRows_fail _ _ Hl).
Qed.

Lemma getTfRows_list_failure_is_fatal_witness :
  store_list (cluster procDown) = Fail (ErrStore TransportError) ∧
  getTfRows procDown =
    Exited "Failed to get Traceflows " (ErrStore TransportError)
           (issue CallList procDown (cluster procDown)) ∧
  traceflowHandler procDown =
    Exited "Failed to get Traceflows " (ErrStore TransportError)
           (issue CallList procDown (cluster procDown)).
Proof.
  split; [reflexivity|].
  apply (getTfRows_list_failure_is_fatal procDown (ErrStore TransportError)).
  reflexivity.
Defined.

(** C2 fails on the code: with the store out of reach the list call fails
    with a transport error, and [getTfRows] does not return it: the process
    ends. *)
Lemma getTfRows_transport_failure_exits :
  store_list (cluster procDown) = Fail (ErrStore TransportError) ∧
  ¬ ∃ rows s', getTfRows procDown = Returned rows s'.
Proof.
  split; [reflexivity|]. intros (rows & s' & H). vm_compute in H. discriminate H.
Qed.

(** C10: when the list call succeeds, a render returns a response without
    error; the response includes the graph card exactly when the stored
    graph text is not empty.  With an empty text its components are the
    layout holding the form card alone and the trace table; otherwise the
    layout holds the form card and the graph card with the stored text. *)
Theorem traceflowHandler_graph_card (s : Proc) (items : list Traceflow) :
  store_list (cluster s) = Ok items →
  ∃ resp,
    traceflowHandler s = Returned (resp, None) (issue CallList s (cluster s)) ∧
    (includesGraphCard resp = true ↔ graph s ≠ "") ∧
    (graph s = "" →
       Components resp =
         [ FlexLayoutComponent "Antrea Traceflow" [[(WidthFull, formCard)]];
           Table "Trace List" "" tfCols (tfRow <$> items) ]) ∧
    (graph s ≠ "" →
       Components resp =
         [ FlexLayoutComponent "Antrea Traceflow"
             [[(WidthFull, formCard); (WidthFull, graphCardOf (graph s))]];
           Table "Trace List" "" tfCols (tfRow <$> items) ]).
Proof.
  intros Hl. unfold traceflowHandler, bind, get_graph. simpl.
  case_bool_decide as Hg; simpl; rewrite (getTfRows_ok _ _ Hl);
    eexists; (split; [reflexivity|]); simpl.
  - split; [|split]; [by split| by intros ? | by intros _].
  - split; [|split]; [split; [by intros ?|by intros ?] | by intros _ | by intros ?].
Qed.

Lemma traceflowHandler_graph_card_witness :
  store_list (cluster procOne) = Ok [tf_t1] ∧
  ∃ resp,
    traceflowHandler procOne =
      Returned (resp, None) (issue CallList procOne (cluster procOne)) ∧
    (includesGraphCard resp = true ↔ graph procOne ≠ "") ∧
    (graph procOne = "" →
       Components resp =
         [ FlexLayoutComponent "Antrea Traceflow" [[(WidthFull, formCard)]];
           Table "Trace List" "" tfCols (tfRow <$> [tf_t1]) ]) ∧
    (graph procOne ≠ "" →
       Components resp =
         [ FlexLayoutComponent "Antrea Traceflow"
             [[(WidthFull, formCard); (WidthFull, graphCardOf (graph procOne))]];
           Table "Trace List" "" tfCols (tfRow <$> [tf_t1]) ]).
Proof.
  split; [reflexivity|].
  apply (traceflowHandler_graph_card procOne [tf_t1]). reflexivity.
Defined.

(** ** The graph of the show-graph action *)

Lemma buildGraph_two_nodes (name : string) :
  name ≠ "m" →
  buildGraph name =
    Ok {| graphviz.nodes := [name; "m"];
          graphviz.edges :=
            [{| graphviz.edgeName := "e"; graphviz.tail := name;
                graphviz.head := "m"; graphviz.label := "e" |}] |}.
Proof.
  intros Hne. unfold buildGraph, graphviz.CreateNode. simpl.
  rewrite bool_decide_eq_false_2
    by (intros H; apply list_elem_of_singleton in H; congruence).
  reflexivity.
Qed.

Lemma buildGraph_m :
  buildGraph "m" =
    Ok {| graphviz.nodes := ["m"];
          graphviz.edges :=
            [{| graphviz.edgeName := "e"; graphviz.tail := "m";
                graphviz.head := "m"; graphviz.label := "e" |}] |}.
Proof. reflexivity. Qed.

Lemma buildGraph_total (name : string) : ∃ g, buildGraph name = Ok g.
Proof.
  destruct (decide (name = "m")) as [->|Hne].
  - eexists. apply buildGraph_m.
  - eexists. by apply buildGraph_two_nodes.
Qed.

(** ** The action handler *)

Lemma Payload_String_fail (p : gmap string PayloadValue) (key : string) err :
  Payload_String p key = Fail err → err = ErrPayload key.
Proof.
  unfold Payload_String. destruct (p !! key) as [[]|]; congruence.
Qed.

Lemma issued_same {A} (a : A) (s : Proc) : issued s (Returned a s) = [].
Proof. unfold issued. simpl. by rewrite drop_all. Qed.

Lemma issued_issue {A} (a : A) (c : ApiCall) (s : Proc) (st : Store) :
  issued s (Returned a (issue c s st)) = [c].
Proof. unfold issued. simpl. by rewrite drop_app_length. Qed.

Lemma issued_issue_exit {A} msg err (c : ApiCall) (s : Proc) (st : Store) :
  issued s (Exited (A:=A) msg err (issue c s st)) = [c].
Proof. unfold issued. simpl. by rewrite drop_app_length. Qed.

Section ActionHandler.

Variable Render : graphviz.Graph -> string -> result string.

(** The [addTfAction] case with its five lookups successful. *)
Lemma actionHandler_addTf (request : ActionRequest) (s : Proc)
  (name fromNamespace fromPod toNamespace toPod : string) :
  Payload_String (Payload request) "action" = Ok addTfAction →
  Payload_String (Payload request) "name" = Ok name →
  Payload_String (Payload request) "fromNamespace" = Ok fromNamespace →
  Payload_String (Payload request) "fromPod" = Ok fromPod →
  Payload_String (Payload request) "toNamespace" = Ok toNamespace →
  Payload_String (Payload request) "toPod" = Ok toPod →
  let tf := newTraceflow name fromNamespace fromPod toNamespace toPod in
  actionHandler Render request s =
    Returned (match (store_create (cluster s) tf).2 with
              | Ok _ => None
              | Fail err => Some err
              end)
             (issue (CallCreate tf) s (store_create (cluster s) tf).1).
Proof.
  intros Ha Hn Hfn Hfp Htn Htp tf. unfold actionHandler.
  rewrite Ha, Hn, Hfn, Hfp, Htn, Htp. simpl.
  unfold bind, Traceflows_Create. fold tf.
  by destruct (store_create (cluster s) tf) as [st [created|err]].
Qed.

(** The [addTfAction] case with a failed lookup: the handler returns the
    wrapped lookup error and leaves the state as it was. *)
Lemma actionHandler_addTf_lookup_fails (request : ActionRequest) (s : Proc)
  (key : string) :
  Payload_String (Payload request) "action" = Ok addTfAction →
  key ∈ ["name"; "fromNamespace"; "fromPod"; "toNamespace"; "toPod"] →
  Payload_String (Payload request) key = Fail (ErrPayload key) →
  ∃ msg key',
    key' ∈ ["name"; "fromNamespace"; "fromPod"; "toNamespace"; "toPod"] ∧
    actionHandler Render request s =
      Returned (Some (ErrWrap msg (ErrPayload key'))) s.
Proof.
  intros Ha Hkey Hfail. unfold actionHandler. rewrite Ha. simpl.
  destruct (Payload_String (Payload request) "name") as [name|e1] eqn:H1.
  2:{ apply Payload_String_fail in H1 as ->. do 2 eexists.
      split; [|reflexivity]. in_list. }
  destruct (Payload_String (Payload request) "fromNamespace")
    as [fromNamespace|e2] eqn:H2.
  2:{ apply Payload_String_fail in H2 as ->. do 2 eexists.
      split; [|reflexivity]. in_list. }
  destruct (Payload_String (Payload request) "fromPod") as [fromPod|e3] eqn:H3.
  2:{ apply Payload_String_fail in H3 as ->. do 2 eexists.
      split; [|reflexivity]. in_list. }
  destruct (Payload_String (Payload request) "toNamespace")
    as [toNamespace|e4] eqn:H4.
  2:{ apply Payload_String_fail in H4 as ->. do 2 eexists.
      split; [|reflexivity]. in_list. }
  destruct (Payload_String (Payload request) "toPod") as [toPod|e5] eqn:H5.
  2:{ apply Payload_String_fail in H5 as ->. do 2 eexists.
      split; [|reflexivity]. in_list. }
  exfalso. repeat (apply elem_of_cons in Hkey as [->|Hkey]; [congruence|]).
  by apply elem_of_nil in Hkey.
Qed.

(** The [showGraphAction] case with its lookup successful: the result of the
    get call is not looked at. *)
Lemma actionHandler_showGraph (request : ActionRequest) (s : Proc)
  (name : string) (g : graphviz.Graph) :
  Payload_String (Payload request) "action" = Ok showGraphAction →
  Payload_String (Payload request) "name" = Ok name →
  buildGraph name = Ok g →
  actionHandler Render request s =
    match Render g "dot" with
    | Ok buf => Returned None {| graph := buf; cluster := cluster s;
                                 calls := calls s ++ [CallGet name] |}
    | Fail err => Exited "" err (issue (CallGet name) s (cluster s))
    end.
Proof.
  intros Ha Hn Hg. unfold actionHandler. rewrite Ha, Hn. simpl.
  unfold bind, Traceflows_Get. rewrite Hg.
  by destruct (Render g "dot") as [buf|err].
Qed.

(** Every run of the handler issues no call, one get call, or one create
    call for the resource made of the five looked-up strings. *)
Lemma actionHandler_issued (request : ActionRequest) (s : Proc) :
  issued s (actionHandler Render request s) = [] ∨
  (∃ name, issued s (actionHandler Render request s) = [CallGet name]) ∨
  (∃ name fromNamespace fromPod toNamespace toPod,
      Payload_String (Payload request) "name" = Ok name ∧
      Payload_String (Payload request) "fromNamespace" = Ok fromNamespace ∧
      Payload_String (Payload request) "fromPod" = Ok fromPod ∧
      Payload_String (Payload request) "toNamespace" = Ok toNamespace ∧
      Payload_String (Payload request) "toPod" = Ok toPod ∧
      issued s (actionHandler Render request s) =
        [CallCreate (newTraceflow name fromNamespace fromPod
                                  toNamespace toPod)]).
Proof.
  destruct (Payload_String (Payload request) "action") as [actionName|e] eqn:Ha.
  2:{ left. unfold actionHandler. rewrite Ha. apply issued_same. }
  destruct (decide (actionName = addTfAction)) as [->|Hadd].
  - destruct (Payload_String (Payload request) "name") as [name|e1] eqn:H1;
    [destruct (Payload_String (Payload request) "fromNamespace")
       as [fromNamespace|e2] eqn:H2;
     [destruct (Payload_String (Payload request) "fromPod")
        as [fromPod|e3] eqn:H3;
      [destruct (Payload_String (Payload request) "toNamespace")
         as [toNamespace|e4] eqn:H4;
       [destruct (Payload_String (Payload request) "toPod")
          as [toPod|e5] eqn:H5|]|]|]|].
    1:{ right; right. exists name, fromNamespace, fromPod, toNamespace, toPod.
        repeat (split; [done|]).
        rewrite (actionHandler_addTf request s _ _ _ _ _ Ha H1 H2 H3 H4 H5).
        apply issued_issue. }
    all: left; unfold actionHandler; rewrite Ha; simpl;
      rewrite ?H1, ?H2, ?H3, ?H4, ?H5; apply issued_same.
  - destruct (decide (actionName = showGraphAction)) as [->|Hshow].
    + destruct (Payload_String (Payload request) "name") as [name|e1] eqn:H1.
      * right; left. exists name.
        destruct (buildGraph_total name) as [g Hg].
        rewrite (actionHandler_showGraph request s name g Ha H1 Hg).
        destruct (Render g "dot") as [buf|err].
        -- unfold issued; simpl. by rewrite drop_app_length.
        -- apply issued_issue_exit.
      * left. unfold actionHandler. rewrite Ha, H1. apply issued_same.
    + left. unfold actionHandler. rewrite Ha. simpl.
      rewrite !bool_decide_eq_false_2 by done. apply issued_same.
Qed.

End ActionHandler.

Section Submit.

Variable Render : graphviz.Graph -> string -> result string.

(** C1, as the code has it: the handler does not look at whether a submitted
    string is empty.  Whenever the five fields are present as strings, empty
    or not, it issues exactly one create call, for the resource made of the
    five values as given, and returns the outcome of that call: nil when the
    store accepted the resource, the store's error otherwise. *)
Theorem submit_performs_no_validation (request : ActionRequest) (s : Proc)
  (name fromNamespace fromPod toNamespace toPod : string) :
  Payload_String (Payload request) "action" = Ok addTfAction →
  Payload_String (Payload request) "name" = Ok name →
  Payload_String (Payload request) "fromNamespace" = Ok fromNamespace →
  Payload_String (Payload request) "fromPod" = Ok fromPod →
  Payload_String (Payload request) "toNamespace" = Ok toNamespace →
  Payload_String (Payload request) "toPod" = Ok toPod →
  let tf := newTraceflow name fromNamespace fromPod toNamespace toPod in
  let out := actionHandler Render request s in
  issued s out = [CallCreate tf] ∧
  (∃ s', out = Returned (returnedError out) s') ∧
  returnedError out =
    match (store_create (cluster s) tf).2 with
    | Ok _ => None
    | Fail err => Some err
    end.
Proof.
  intros Ha Hn Hfn Hfp Htn Htp tf out. unfold out.
  rewrite (actionHandler_addTf Render request s _ _ _ _ _ Ha Hn Hfn Hfp Htn Htp).
  fold tf. split; [apply issued_issue|]. split; [|reflexivity].
  eexists. reflexivity.
Qed.

(** C4, as the code has it: a submit whose five fields are present issues
    exactly one create call and hands the host the error of that call
    unchanged, with no second attempt: a transport error when the store is
    out of reach, a conflict when it holds an entry of that name; when the
    call succeeds the handler returns nil, the created resource is dropped
    and the store has the new entry at its end. *)
Theorem submit_returns_create_error (request : ActionRequest) (s : Proc)
  (name fromNamespace fromPod toNamespace toPod : string) :
  Payload_String (Payload request) "action" = Ok addTfAction →
  Payload_String (Payload request) "name" = Ok name →
  Payload_String (Payload request) "fromNamespace" = Ok fromNamespace →
  Payload_String (Payload request) "fromPod" = Ok fromPod →
  Payload_String (Payload request) "toNamespace" = Ok toNamespace →
  Payload_String (Payload request) "toPod" = Ok toPod →
  let tf := newTraceflow name fromNamespace fromPod toNamespace toPod in
  let out := actionHandler Render request s in
  (reachable (cluster s) = false →
     out = Returned (Some (ErrStore TransportError))
                    (issue (CallCreate tf) s (cluster s))) ∧
  (reachable (cluster s) = true →
   (∃ held, held ∈ entries (cluster s) ∧ tfName held = name) →
     out = Returned (Some (ErrStore ConflictError))
                    (issue (CallCreate tf) s (cluster s))) ∧
  (reachable (cluster s) = true →
   (∀ held, held ∈ entries (cluster s) → tfName held ≠ name) →
     out = Returned None
             (issue (CallCreate tf) s
                {| reachable := true;
                   entries := entries (cluster s) ++ [tf] |})).
Proof.
  intros Ha Hn Hfn Hfp Htn Htp tf out. unfold out.
  rewrite (actionHandler_addTf Render request s _ _ _ _ _ Ha Hn Hfn Hfp Htn Htp).
  fold tf. unfold store_create. split; [|split].
  - intros ->. reflexivity.
  - intros -> (held & Hin & Hname). simpl.
    assert (existsb (hasName (tfName tf)) (entries (cluster s)) = true) as ->;
      [|reflexivity].
    apply existsb_exists. exists held. split; [by apply list_elem_of_In|].
    unfold hasName. by apply bool_decide_eq_true_2.
  - intros Hr Hfresh. rewrite Hr. simpl.
    assert (existsb (hasName (tfName tf)) (entries (cluster s)) = false) as ->;
      [|reflexivity].
    apply not_true_is_false. intros (held & Hin & Hname)%existsb_exists.
    apply list_elem_of_In in Hin. unfold hasName in Hname.
    apply bool_decide_eq_true_1 in Hname. by apply (Hfresh held).
Qed.

(** C5: every create call that a run of the handler issues is for a resource
    whose name, source namespace, source pod, destination namespace and
    destination pod are the strings of the payload's [name], [fromNamespace],
    [fromPod], [toNamespace] and [toPod], and whose destination service,
    round id, packet and status are the zero values. *)
Theorem create_call_carries_submitted_fields (request : ActionRequest)
  (s : Proc) (tf : Traceflow) :
  CallCreate tf ∈ issued s (actionHandler Render request s) →
  Payload_String (Payload request) "name" = Ok (tfName tf) ∧
  Payload_String (Payload request) "fromNamespace" = Ok (SrcNamespace tf) ∧
  Payload_String (Payload request) "fromPod" = Ok (SrcPod tf) ∧
  Payload_String (Payload request) "toNamespace" = Ok (DstNamespace tf) ∧
  Payload_String (Payload request) "toPod" = Ok (DstPod tf) ∧
  DstService tf = "" ∧
  RoundID tf = "" ∧
  TfPacket tf = {| packetFields := ∅ |} ∧
  TfStatus tf = {| statusFields := ∅ |}.
Proof.
  intros Hin.
  destruct (actionHandler_issued Render request s)
    as [Hi|[(name & Hi)|(name & fns & fp & tns & tp & H1 & H2 & H3 & H4 & H5 & Hi)]];
    rewrite Hi in Hin.
  - by apply elem_of_nil in Hin.
  - apply list_elem_of_singleton in Hin. discriminate Hin.
  - apply list_elem_of_singleton in Hin. injection Hin as ->.
    by repeat split.
Qed.

(** C8: a request whose action is a string other than the two registered
    action names gets the error "no handler defined"; the handler returns
    with the process state as it was, so no call reaches the store. *)
Theorem unknown_action_is_rejected (request : ActionRequest) (s : Proc)
  (actionName : string) :
  Payload_String (Payload request) "action" = Ok actionName →
  actionName ≠ addTfAction →
  actionName ≠ showGraphAction →
  actionHandler Render request s =
    Returned (Some (ErrString
      "recieved action request for traceflowPlugin, but no handler defined")) s ∧
  issued s (actionHandler Render request s) = [].
Proof.
  intros Ha Hadd Hshow. unfold actionHandler. rewrite Ha. simpl.
  rewrite !bool_decide_eq_false_2 by done. split; [reflexivity|].
  apply issued_same.
Qed.

(** C9: an add-traceflow request in which the string lookup of one of the
    keys [name], [fromNamespace], [fromPod], [toNamespace], [toPod] fails
    gets an error that wraps a failed lookup of one of these keys; the
    handler returns with the process state as it was: no create call was
    issued and the store is unchanged. *)
Theorem addTf_missing_key_is_rejected (request : ActionRequest) (s : Proc)
  (key : string) (err : Err) :
  Payload_String (Payload request) "action" = Ok addTfAction →
  key ∈ ["name"; "fromNamespace"; "fromPod"; "toNamespace"; "toPod"] →
  Payload_String (Payload request) key = Fail err →
  let out := actionHandler Render request s in
  (∃ msg key',
     key' ∈ ["name"; "fromNamespace"; "fromPod"; "toNamespace"; "toPod"] ∧
     out = Returned (Some (ErrWrap msg (ErrPayload key'))) s) ∧
  issued s out = [] ∧
  cluster (final out) = cluster s.
Proof.
  intros Ha Hkey Hfail out.
  pose proof (Payload_String_fail _ _ _ Hfail) as ->.
  destruct (actionHandler_addTf_lookup_fails Render request s key Ha Hkey Hfail)
    as (msg & key' & Hk' & Hout).
  unfold out. rewrite Hout. split; [by exists msg, key'|].
  split; [apply issued_same | reflexivity].
Qed.

(** X16: in the show-graph action the get call is issued once and its
    result is dropped.  For a name that the store does not hold the call
    yields a lookup miss, and a transport error when the store is out of
    reach; in either case the handler goes on to build and render the graph,
    returns nil when the rendering succeeds, and never returns an error to
    the host. *)
Theorem showGraph_drops_get_result (request : ActionRequest) (s : Proc)
  (name : string) :
  Payload_String (Payload request) "action" = Ok showGraphAction →
  Payload_String (Payload request) "name" = Ok name →
  let out := actionHandler Render request s in
  (reachable (cluster s) = true →
   (∀ held, held ∈ entries (cluster s) → tfName held ≠ name) →
     store_get (cluster s) name = Fail (ErrStore NotFoundError)) ∧
  (reachable (cluster s) = false →
     store_get (cluster s) name = Fail (ErrStore TransportError)) ∧
  issued s out = [CallGet name] ∧
  returnedError out = None ∧
  (∀ g buf, buildGraph name = Ok g → Render g "dot" = Ok buf →
     out = Returned None {| graph := buf; cluster := cluster s;
                            calls := calls s ++ [CallGet name] |}).
Proof.
  intros Ha Hn out. destruct (buildGraph_total name) as [g Hg].
  unfold out. rewrite (actionHandler_showGraph Render request s name g Ha Hn Hg).
  split; [|split; [|split; [|split]]].
  - intros Hr Hfresh. unfold store_get. rewrite Hr. simpl.
    destruct (find (hasName name) (entries (cluster s))) as [held|] eqn:Hf;
      [|reflexivity].
    apply find_some in Hf as [Hin Hname]. apply list_elem_of_In in Hin.
    unfold hasName in Hname. apply bool_decide_eq_true_1 in Hname.
    by destruct (Hfresh held Hin).
  - intros Hr. unfold store_get. by rewrite Hr.
  - destruct (Render g "dot") as [buf|err].
    + unfold issued. simpl. by rewrite drop_app_length.
    + apply issued_issue_exit.
  - by destruct (Render g "dot").
  - intros g' buf Hg' Hbuf. rewrite Hg in Hg'. injection Hg' as <-.
    by rewrite Hbuf.
Qed.

(** C3: in the show-graph action the get call is issued for the name of the
    payload, and it answers its caller, the handler, as the store does: for
    a name of which the store holds no entry, so for every name that was
    never submitted, with the lookup miss, and when the store is out of
    reach with the transport error. *)
Theorem showGraph_get_call_reports_miss (request : ActionRequest) (s : Proc)
  (name : string) :
  Payload_String (Payload request) "action" = Ok showGraphAction →
  Payload_String (Payload request) "name" = Ok name →
  issued s (actionHandler Render request s) = [CallGet name] ∧
  (reachable (cluster s) = true →
   (∀ held, held ∈ entries (cluster s) → tfName held ≠ name) →
     Traceflows_Get name s =
       Returned (Fail (ErrStore NotFoundError))
                (issue (CallGet name) s (cluster s))) ∧
  (reachable (cluster s) = false →
     Traceflows_Get name s =
       Returned (Fail (ErrStore TransportError))
                (issue (CallGet name) s (cluster s))).
Proof.
  intros Ha Hn. split; [|split].
  - destruct (buildGraph_total name) as [g Hg].
    rewrite (actionHandler_showGraph Render request s name g Ha Hn Hg).
    destruct (Render g "dot") as [buf|err].
    + unfold issued. simpl. by rewrite drop_app_length.
    + apply issued_issue_exit.
  - intros Hr Hfresh. unfold Traceflows_Get, store_get. rewrite Hr. simpl.
    destruct (find (hasName name) (entries (cluster s))) as [held|] eqn:Hf;
      [|reflexivity].
    apply find_some in Hf as [Hin Hname]. apply list_elem_of_In in Hin.
    unfold hasName in Hname. apply bool_decide_eq_true_1 in Hname.
    by destruct (Hfresh held Hin).
  - intros Hr. unfold Traceflows_Get, store_get. by rewrite Hr.
Qed.

(** X17: for every name other than "m" the graph built in the show-graph
    action has exactly the two nodes, the name and "m", and the one edge "e"
    from the first to the second, labelled "e".  The graph is handed to the
    renderer and the text that comes back is stored as the plugin's graph; a
    rendering failure ends the process. *)
Theorem showGraph_builds_two_nodes (request : ActionRequest) (s : Proc)
  (name : string) :
  Payload_String (Payload request) "action" = Ok showGraphAction →
  Payload_String (Payload request) "name" = Ok name →
  name ≠ "m" →
  let g := {| graphviz.nodes := [name; "m"];
              graphviz.edges :=
                [{| graphviz.edgeName := "e"; graphviz.tail := name;
                    graphviz.head := "m"; graphviz.label := "e" |}] |} in
  buildGraph name = Ok g ∧
  actionHandler Render request s =
    match Render g "dot" with
    | Ok buf => Returned None {| graph := buf; cluster := cluster s;
                                 calls := calls s ++ [CallGet name] |}
    | Fail err => Exited "" err (issue (CallGet name) s (cluster s))
    end.
Proof.
  intros Ha Hn Hne g. pose proof (buildGraph_two_nodes name Hne) as Hg.
  split; [exact Hg|]. by apply actionHandler_showGraph.
Qed.

End Submit.

(** ** The claims at concrete requests *)

(** C1 fails on the code: a submit with an empty source pod gets no error,
    and the create call is issued with the empty value. *)
Lemma submit_with_empty_field_reaches_store :
  Payload_String (Payload emptyPodRequest) "fromPod" = Ok "" ∧
  actionHandler sampleRender emptyPodRequest procEmpty =
    Returned None
      {| graph := "";
         cluster :=
           {| reachable := true;
              entries := [newTraceflow "t1" "default" "" "default" "pod-b"] |};
         calls := [CallCreate
                     (newTraceflow "t1" "default" "" "default" "pod-b")] |} ∧
  ¬ ((∃ err, returnedError
               (actionHandler sampleRender emptyPodRequest procEmpty) = Some err
             ∧ kindOf err = Some KValidation) ∧
     (∀ tf, CallCreate tf ∉
              issued procEmpty
                (actionHandler sampleRender emptyPodRequest procEmpty))).
Proof.
  split; [reflexivity|]. split; [reflexivity|].
  intros [(err & Herr & _) _]. vm_compute in Herr. discriminate Herr.
Qed.

Lemma submit_performs_no_validation_witness :
  Payload_String (Payload emptyPodRequest) "action" = Ok addTfAction ∧
  Payload_String (Payload emptyPodRequest) "name" = Ok "t1" ∧
  Payload_String (Payload emptyPodRequest) "fromNamespace" = Ok "default" ∧
  Payload_String (Payload emptyPodRequest) "fromPod" = Ok "" ∧
  Payload_String (Payload emptyPodRequest) "toNamespace" = Ok "default" ∧
  Payload_String (Payload emptyPodRequest) "toPod" = Ok "pod-b" ∧
  let tf := newTraceflow "t1" "default" "" "default" "pod-b" in
  let out := actionHandler sampleRender emptyPodRequest procEmpty in
  issued procEmpty out = [CallCreate tf] ∧
  (∃ s', out = Returned (returnedError out) s') ∧
  returnedError out =
    match (store_create (cluster procEmpty) tf).2 with
    | Ok _ => None
    | Fail err => Some err
    end.
Proof.
  do 6 (split; [reflexivity|]).
  apply (submit_performs_no_validation sampleRender emptyPodRequest procEmpty
           "t1" "default" "" "default" "pod-b"); reflexivity.
Defined.

(** C4 fails on the code: two accepted submits of different names hand the
    host the same value, nil, so what the handler returns cannot carry the
    identity of the created request. *)
Lemma submit_success_returns_nil_only :
  let out1 := actionHandler sampleRender t1Request procEmpty in
  let out2 := actionHandler sampleRender
                (addTfRequest "t2" "default" "pod-a" "default" "pod-b")
                procEmpty in
  (∃ s1, out1 = Returned None s1) ∧
  (∃ s2, out2 = Returned None s2) ∧
  ¬ ∃ identity : option Err → string,
      identity (returnedError out1) = "t1" ∧
      identity (returnedError out2) = "t2".
Proof.
  split; [eexists; reflexivity|]. split; [eexists; reflexivity|].
  intros (identity & H1 & H2). vm_compute in H1, H2. congruence.
Qed.

Lemma submit_returns_create_error_witness :
  Payload_String (Payload t1Request) "action" = Ok addTfAction ∧
  Payload_String (Payload t1Request) "name" = Ok "t1" ∧
  Payload_String (Payload t1Request) "fromNamespace" = Ok "default" ∧
  Payload_String (Payload t1Request) "fromPod" = Ok "pod-a" ∧
  Payload_String (Payload t1Request) "toNamespace" = Ok "default" ∧
  Payload_String (Payload t1Request) "toPod" = Ok "pod-b" ∧
  let tf := newTraceflow "t1" "default" "pod-a" "default" "pod-b" in
  let out := actionHandler sampleRender t1Request procOne in
  (reachable (cluster procOne) = false →
     out = Returned (Some (ErrStore TransportError))
                    (issue (CallCreate tf) procOne (cluster procOne))) ∧
  (reachable (cluster procOne) = true →
   (∃ held, held ∈ entries (cluster procOne) ∧ tfName held = "t1") →
     out = Returned (Some (ErrStore ConflictError))
                    (issue (CallCreate tf) procOne (cluster procOne))) ∧
  (reachable (cluster procOne) = true →
   (∀ held, held ∈ entries (cluster procOne) → tfName held ≠ "t1") →
     out = Returned None
             (issue (CallCreate tf) procOne
                {| reachable := true;
                   entries := entries (cluster procOne) ++ [tf] |})).
Proof.
  do 6 (split; [reflexivity|]).
  apply (submit_returns_create_error sampleRender t1Request procOne
           "t1" "default" "pod-a" "default" "pod-b"); reflexivity.
Defined.

Example submit_twice_conflicts :
  actionHandler sampleRender t1Request procOne =
    Returned (Some (ErrStore ConflictError))
      {| graph := ""; cluster := cluster procOne;
         calls := [CallCreate
                     (newTraceflow "t1" "default" "pod-a" "default" "pod-b")] |}.
Proof. reflexivity. Qed.

Example submit_unreachable :
  returnedError (actionHandler sampleRender t1Request procDown) =
    Some (ErrStore TransportError).
Proof. reflexivity. Qed.

Lemma create_call_carries_submitted_fields_witness :
  let tf := newTraceflow "t1" "default" "pod-a" "default" "pod-b" in
  CallCreate tf ∈ issued procEmpty (actionHandler sampleRender t1Request procEmpty) ∧
  Payload_String (Payload t1Request) "name" = Ok (tfName tf) ∧
  Payload_String (Payload t1Request) "fromNamespace" = Ok (SrcNamespace tf) ∧
  Payload_String (Payload t1Request) "fromPod" = Ok (SrcPod tf) ∧
  Payload_String (Payload t1Request) "toNamespace" = Ok (DstNamespace tf) ∧
  Payload_String (Payload t1Request) "toPod" = Ok (DstPod tf) ∧
  DstService tf = "" ∧
  RoundID tf = "" ∧
  TfPacket tf = {| packetFields := ∅ |} ∧
  TfStatus tf = {| statusFields := ∅ |}.
Proof.
  assert (CallCreate (newTraceflow "t1" "default" "pod-a" "default" "pod-b") ∈
            issued procEmpty (actionHandler sampleRender t1Request procEmpty))
    as Hin by (vm_compute; apply list_elem_of_here).
  split; [exact Hin|].
  exact (create_call_carries_submitted_fields sampleRender t1Request procEmpty
           _ Hin).
Defined.

Lemma unknown_action_is_rejected_witness :
  Payload_String (Payload deleteRequest) "action" =
    Ok "traceflowPlugin/deleteTf" ∧
  "traceflowPlugin/deleteTf" ≠ addTfAction ∧
  "traceflowPlugin/deleteTf" ≠ showGraphAction ∧
  actionHandler sampleRender deleteRequest procOne =
    Returned (Some (ErrString
      "recieved action request for traceflowPlugin, but no handler defined"))
      procOne ∧
  issued procOne (actionHandler sampleRender deleteRequest procOne) = [].
Proof.
  split; [reflexivity|]. split; [discriminate|]. split; [discriminate|].
  apply (unknown_action_is_rejected sampleRender deleteRequest procOne
           "traceflowPlugin/deleteTf"); [reflexivity | discriminate | discriminate].
Defined.

Lemma addTf_missing_key_is_rejected_witness :
  Payload_String (Payload noToNamespaceRequest) "action" = Ok addTfAction ∧
  "toNamespace" ∈ ["name"; "fromNamespace"; "fromPod"; "toNamespace"; "toPod"] ∧
  Payload_String (Payload noToNamespaceRequest) "toNamespace" =
    Fail (ErrPayload "toNamespace") ∧
  let out := actionHandler sampleRender noToNamespaceRequest procOne in
  (∃ msg key',
     key' ∈ ["name"; "fromNamespace"; "fromPod"; "toNamespace"; "toPod"] ∧
     out = Returned (Some (ErrWrap msg (ErrPayload key'))) procOne) ∧
  issued procOne out = [] ∧
  cluster (final out) = cluster procOne.
Proof.
  split; [reflexivity|]. split; [in_list|]. split; [reflexivity|].
  apply (addTf_missing_key_is_rejected sampleRender noToNamespaceRequest procOne
           "toNamespace" (ErrPayload "toNamespace"));
    [reflexivity | in_list | reflexivity].
Defined.

Example addTf_missing_toNamespace :
  actionHandler sampleRender noToNamespaceRequest procOne =
    Returned (Some (ErrWrap "unable to get toNamespace at string : "
                            (ErrPayload "toNamespace"))) procOne.
Proof. reflexivity. Qed.

(** For a name that was never submitted the store's get call reports the
    lookup miss, and with the store out of reach the transport error; the
    handler returns nil to the host in both cases. *)
Lemma showGraph_of_unknown_name_returns_nil :
  store_get (cluster procEmpty) "ghost" = Fail (ErrStore NotFoundError) ∧
  actionHandler sampleRender (showGraphRequest "ghost") procEmpty =
    Returned None {| graph := "ghost m ghost->m"; cluster := cluster procEmpty;
                     calls := [CallGet "ghost"] |} ∧
  store_get (cluster procDown) "ghost" = Fail (ErrStore TransportError) ∧
  actionHandler sampleRender (showGraphRequest "ghost") procDown =
    Returned None {| graph := "ghost m ghost->m"; cluster := cluster procDown;
                     calls := [CallGet "ghost"] |} ∧
  ¬ (∃ err,
       returnedError
         (actionHandler sampleRender (showGraphRequest "ghost") procEmpty)
         = Some err ∧
       kindOf err = Some KNotFound).
Proof.
  do 4 (split; [reflexivity|]).
  intros (err & Herr & _). vm_compute in Herr. discriminate Herr.
Qed.

Lemma showGraph_drops_get_result_witness :
  Payload_String (Payload (showGraphRequest "ghost")) "action" =
    Ok showGraphAction ∧
  Payload_String (Payload (showGraphRequest "ghost")) "name" = Ok "ghost" ∧
  let out := actionHandler sampleRender (showGraphRequest "ghost") procOne in
  (reachable (cluster procOne) = true →
   (∀ held, held ∈ entries (cluster procOne) → tfName held ≠ "ghost") →
     store_get (cluster procOne) "ghost" = Fail (ErrStore NotFoundError)) ∧
  (reachable (cluster procOne) = false →
     store_get (cluster procOne) "ghost" = Fail (ErrStore TransportError)) ∧
  issued procOne out = [CallGet "ghost"] ∧
  returnedError out = None ∧
  (∀ g buf, buildGraph "ghost" = Ok g → sampleRender g "dot" = Ok buf →
     out = Returned None {| graph := buf; cluster := cluster procOne;
                            calls := calls procOne ++ [CallGet "ghost"] |}).
Proof.
  do 2 (split; [reflexivity|]).
  apply (showGraph_drops_get_result sampleRender (showGraphRequest "ghost")
           procOne "ghost"); reflexivity.
Defined.

(** C7, at the input on which the code fails it: for the name "m" the two
    node creations yield one node, so the graph that is built, rendered and
    stored has one node, not two, and its edge is a loop. *)
Lemma showGraph_of_m_has_one_node :
  buildGraph "m" =
    Ok {| graphviz.nodes := ["m"];
          graphviz.edges :=
            [{| graphviz.edgeName := "e"; graphviz.tail := "m";
                graphviz.head := "m"; graphviz.label := "e" |}] |} ∧
  actionHandler sampleRender (showGraphRequest "m") procEmpty =
    Returned None {| graph := "m m->m"; cluster := cluster procEmpty;
                     calls := [CallGet "m"] |} ∧
  ¬ ∃ g, buildGraph "m" = Ok g ∧ length (graphviz.nodes g) = 2.
Proof.
  split; [reflexivity|]. split; [reflexivity|].
  intros (g & Hg & Hlen). rewrite buildGraph_m in Hg. injection Hg as <-.
  discriminate Hlen.
Qed.

Lemma showGraph_builds_two_nodes_witness :
  Payload_String (Payload (showGraphRequest "t1")) "action" =
    Ok showGraphAction ∧
  Payload_String (Payload (showGraphRequest "t1")) "name" = Ok "t1" ∧
  "t1" ≠ "m" ∧
  let g := {| graphviz.nodes := ["t1"; "m"];
              graphviz.edges :=
                [{| graphviz.edgeName := "e"; graphviz.tail := "t1";
                    graphviz.head := "m"; graphviz.label := "e" |}] |} in
  buildGraph "t1" = Ok g ∧
  actionHandler sampleRender (showGraphRequest "t1") procOne =
    match sampleRender g "dot" with
    | Ok buf => Returned None {| graph := buf; cluster := cluster procOne;
                                 calls := calls procOne ++ [CallGet "t1"] |}
    | Fail err => Exited "" err (issue (CallGet "t1") procOne (cluster procOne))
    end.
Proof.
  do 2 (split; [reflexivity|]). split; [discriminate|].
  apply (showGraph_builds_two_nodes sampleRender (showGraphRequest "t1")
           procOne "t1"); [reflexivity | reflexivity | discriminate].
Defined.

Lemma showGraph_get_call_reports_miss_witness :
  Payload_String (Payload (showGraphRequest "ghost")) "action" =
    Ok showGraphAction ∧
  Payload_String (Payload (showGraphRequest "ghost")) "name" = Ok "ghost" ∧
  issued procOne (actionHandler sampleRender (showGraphRequest "ghost") procOne)
    = [CallGet "ghost"] ∧
  (reachable (cluster procOne) = true →
   (∀ held, held ∈ entries (cluster procOne) → tfName held ≠ "ghost") →
     Traceflows_Get "ghost" procOne =
       Returned (Fail (ErrStore NotFoundError))
                (issue (CallGet "ghost") procOne (cluster procOne))) ∧
  (reachable (cluster procOne) = false →
     Traceflows_Get "ghost" procOne =
       Returned (Fail (ErrStore TransportError))
                (issue (CallGet "ghost") procOne (cluster procOne))).
Proof.
  do 2 (split; [reflexivity|]).
  apply (showGraph_get_call_reports_miss sampleRender
           (showGraphRequest "ghost") procOne "ghost"); reflexivity.
Defined.

Example get_call_of_unknown_name :
  Traceflows_Get "ghost" procOne =
    Returned (Fail (ErrStore NotFoundError))
             (issue (CallGet "ghost") procOne (cluster procOne)) ∧
  Traceflows_Get "t1" procOne =
    Returned (Ok tf_t1) (issue (CallGet "t1") procOne (cluster procOne)) ∧
  Traceflows_Get "ghost" procDown =
    Returned (Fail (ErrStore TransportError))
             (issue (CallGet "ghost") procDown (cluster procDown)).
Proof. repeat split. Qed.

Example showGraph_t1_stored :
  actionHandler sampleRender (showGraphRequest "t1") procOne =
    Returned None {| graph := "t1 m t1->m"; cluster := cluster procOne;
                     calls := [CallGet "t1"] |}.
Proof. reflexivity. Qed.

(** ** Further properties of the action handler *)

Lemma store_create_error (st : Store) (tf : Traceflow) (err : Err) :
  (store_create st tf).2 = Fail err → ∃ e, err = ErrStore e.
Proof.
  unfold store_create. destruct (negb (reachable st)); simpl.
  - intros [= <-]. by eexists.
  - destruct (existsb _ _); simpl; [intros [= <-]; by eexists | discriminate].
Qed.

Lemma in_addTfKeys (key : string) :
  key ∈ addTfKeys ↔
  key = "name" ∨ key = "fromNamespace" ∨ key = "fromPod" ∨
  key = "toNamespace" ∨ key = "toPod".
Proof.
  unfold addTfKeys. rewrite !elem_of_cons, elem_of_nil. tauto.
Qed.

Section Handler.

Variable Render : graphviz.Graph -> string -> result string.

(** The [addTfAction] case: a wrapped lookup failure with the state as it
    was, or the create call. *)
Lemma actionHandler_addTf_cases (request : ActionRequest) (s : Proc) :
  Payload_String (Payload request) "action" = Ok addTfAction →
  (∃ msg key, key ∈ addTfKeys ∧
     actionHandler Render request s =
       Returned (Some (ErrWrap msg (ErrPayload key))) s) ∨
  (∃ name fromNamespace fromPod toNamespace toPod,
     let tf := newTraceflow name fromNamespace fromPod toNamespace toPod in
     Payload_String (Payload request) "name" = Ok name ∧
     Payload_String (Payload request) "fromNamespace" = Ok fromNamespace ∧
     Payload_String (Payload request) "fromPod" = Ok fromPod ∧
     Payload_String (Payload request) "toNamespace" = Ok toNamespace ∧
     Payload_String (Payload request) "toPod" = Ok toPod ∧
     actionHandler Render request s =
       Returned (match (store_create (cluster s) tf).2 with
                 | Ok _ => None
                 | Fail err => Some err
                 end)
                (issue (CallCreate tf) s (store_create (cluster s) tf).1)).
Proof.
  intros Ha.
  assert (∀ key err, key ∈ addTfKeys →
            Payload_String (Payload request) key = Fail err →
            ∃ msg key', key' ∈ addTfKeys ∧
              actionHandler Render request s =
                Returned (Some (ErrWrap msg (ErrPayload key'))) s) as Hfail.
  { intros key err Hkey Hf. pose proof (Payload_String_fail _ _ _ Hf) as ->.
    exact (actionHandler_addTf_lookup_fails Render request s key Ha Hkey Hf). }
  destruct (Payload_String (Payload request) "name") as [name|e] eqn:H1;
    [|left; apply (Hfail "name" e); [unfold addTfKeys; in_list | done]].
  destruct (Payload_String (Payload request) "fromNamespace") as [fns|e] eqn:H2;
    [|left; apply (Hfail "fromNamespace" e); [unfold addTfKeys; in_list | done]].
  destruct (Payload_String (Payload request) "fromPod") as [fp|e] eqn:H3;
    [|left; apply (Hfail "fromPod" e); [unfold addTfKeys; in_list | done]].
  destruct (Payload_String (Payload request) "toNamespace") as [tns|e] eqn:H4;
    [|left; apply (Hfail "toNamespace" e); [unfold addTfKeys; in_list | done]].
  destruct (Payload_String (Payload request) "toPod") as [tp|e] eqn:H5;
    [|left; apply (Hfail "toPod" e); [unfold addTfKeys; in_list | done]].
  right. exists name, fns, fp, tns, tp. simpl. repeat (split; [done|]).
  by apply actionHandler_addTf.
Qed.

(** The [showGraphAction] case: a wrapped lookup failure with the state as
    it was, or the get call followed by the rendering. *)
Lemma actionHandler_showGraph_cases (request : ActionRequest) (s : Proc) :
  Payload_String (Payload request) "action" = Ok showGraphAction →
  actionHandler Render request s =
    Returned (Some (ErrWrap "unable to get name at string : "
                            (ErrPayload "name"))) s ∨
  (∃ name g,
     Payload_String (Payload request) "name" = Ok name ∧
     buildGraph name = Ok g ∧
     actionHandler Render request s =
       match Render g "dot" with
       | Ok buf => Returned None {| graph := buf; cluster := cluster s;
                                    calls := calls s ++ [CallGet name] |}
       | Fail err => Exited "" err (issue (CallGet name) s (cluster s))
       end).
Proof.
  intros Ha.
  destruct (Payload_String (Payload request) "name") as [name|e] eqn:Hn.
  - right. destruct (buildGraph_total name) as [g Hg]. exists name, g.
    repeat (split; [done|]). by apply actionHandler_showGraph.
  - left. apply Payload_String_fail in Hn as Hn'. subst e.
    unfold actionHandler. by rewrite Ha, Hn.
Qed.

Lemma actionHandler_no_action (request : ActionRequest) (s : Proc) err :
  Payload_String (Payload request) "action" = Fail err →
  actionHandler Render request s =
    Returned (Some (ErrWrap "unable to get input at string: "
                            (ErrPayload "action"))) s.
Proof.
  intros Ha. apply Payload_String_fail in Ha as Ha'. subst err.
  unfold actionHandler. by rewrite Ha.
Qed.

Lemma actionHandler_default (request : ActionRequest) (s : Proc) actionName :
  Payload_String (Payload request) "action" = Ok actionName →
  actionName ≠ addTfAction → actionName ≠ showGraphAction →
  actionHandler Render request s = Returned (Some noHandlerError) s.
Proof.
  intros Ha Hadd Hshow. unfold actionHandler. rewrite Ha. simpl.
  by rewrite !bool_decide_eq_false_2.
Qed.

(** A request whose payload has no string under the key [action] gets
    the error "unable to get input at string" around the failed lookup; the
    handler returns with the process state as it was. *)
Lemma missing_action_is_rejected (request : ActionRequest) (s : Proc)
  (err : Err) :
  Payload_String (Payload request) "action" = Fail err →
  actionHandler Render request s =
    Returned (Some (ErrWrap "unable to get input at string: "
                            (ErrPayload "action"))) s ∧
  issued s (actionHandler Render request s) = [].
Proof.
  intros Ha. rewrite (actionHandler_no_action request s err Ha).
  split; [reflexivity | apply issued_same].
Qed.

(** A show-graph request whose payload has no string under the key
    [name] gets the wrapped lookup error before the get call: no call is
    issued and the stored graph stays as it was. *)
Lemma showGraph_missing_name_is_rejected (request : ActionRequest)
  (s : Proc) (err : Err) :
  Payload_String (Payload request) "action" = Ok showGraphAction →
  Payload_String (Payload request) "name" = Fail err →
  actionHandler Render request s =
    Returned (Some (ErrWrap "unable to get name at string : "
                            (ErrPayload "name"))) s ∧
  issued s (actionHandler Render request s) = [].
Proof.
  intros Ha Hn.
  destruct (actionHandler_showGraph_cases request s Ha)
    as [Hout|(name & g & Hn' & _)]; [|congruence].
  rewrite Hout. split; [reflexivity | apply issued_same].
Qed.

(** X2: in an add-traceflow request the error names the first key, in the
    order name, fromNamespace, fromPod, toNamespace, toPod, whose lookup
    fails: its text is "unable to get <key> at string : " and its cause is
    the failed lookup of that key. *)
Theorem addTf_reports_first_failed_key (request : ActionRequest) (s : Proc)
  (i : nat) (key : string) (err : Err) :
  Payload_String (Payload request) "action" = Ok addTfAction →
  addTfKeys !! i = Some key →
  (∀ j earlier, j < i → addTfKeys !! j = Some earlier →
     ∃ v, Payload_String (Payload request) earlier = Ok v) →
  Payload_String (Payload request) key = Fail err →
  actionHandler Render request s =
    Returned (Some (ErrWrap ("unable to get " +:+ key +:+ " at string : ")
                            (ErrPayload key))) s.
Proof.
  intros Ha Hi Hearlier Hfail.
  pose proof (Payload_String_fail _ _ _ Hfail) as ->.
  unfold actionHandler. rewrite Ha. simpl.
  destruct i as [|[|[|[|[|i]]]]]; simpl in Hi;
    [injection Hi as <- ..|discriminate Hi].
  - by rewrite Hfail.
  - destruct (Hearlier 0 "name") as [? ->]; [lia|done|].
    by rewrite Hfail.
  - destruct (Hearlier 0 "name") as [? ->]; [lia|done|].
    destruct (Hearlier 1 "fromNamespace") as [? ->]; [lia|done|].
    by rewrite Hfail.
  - destruct (Hearlier 0 "name") as [? ->]; [lia|done|].
    destruct (Hearlier 1 "fromNamespace") as [? ->]; [lia|done|].
    destruct (Hearlier 2 "fromPod") as [? ->]; [lia|done|].
    by rewrite Hfail.
  - destruct (Hearlier 0 "name") as [? ->]; [lia|done|].
    destruct (Hearlier 1 "fromNamespace") as [? ->]; [lia|done|].
    destruct (Hearlier 2 "fromPod") as [? ->]; [lia|done|].
    destruct (Hearlier 3 "toNamespace") as [? ->]; [lia|done|].
    by rewrite Hfail.
Qed.

(** X3: one run of the handler issues at most one call against the store;
    a create call only under the add-traceflow action, a get call only under
    the show-graph action and for the name of the payload, and never a list
    call. *)
Theorem actionHandler_calls_by_action (request : ActionRequest) (s : Proc) :
  let out := actionHandler Render request s in
  length (issued s out) ≤ 1 ∧
  (∀ tf, CallCreate tf ∈ issued s out →
     Payload_String (Payload request) "action" = Ok addTfAction) ∧
  (∀ name, CallGet name ∈ issued s out →
     Payload_String (Payload request) "action" = Ok showGraphAction ∧
     Payload_String (Payload request) "name" = Ok name) ∧
  CallList ∉ issued s out.
Proof.
  assert (∀ o : outcome (option Err), issued s o = [] →
            length (issued s o) ≤ 1 ∧
            (∀ tf, CallCreate tf ∈ issued s o →
               Payload_String (Payload request) "action" = Ok addTfAction) ∧
            (∀ name, CallGet name ∈ issued s o →
               Payload_String (Payload request) "action" = Ok showGraphAction ∧
               Payload_String (Payload request) "name" = Ok name) ∧
            CallList ∉ issued s o) as Hnone.
  { intros o ->. simpl. split; [lia|].
    split; [|split].
    - intros tf Hin. by apply elem_of_nil in Hin.
    - intros name Hin. by apply elem_of_nil in Hin.
    - intros Hin. by apply elem_of_nil in Hin. }
  simpl.
  destruct (Payload_String (Payload request) "action") as [a|e] eqn:Ha.
  2:{ apply Hnone. rewrite (actionHandler_no_action request s e Ha).
      apply issued_same. }
  destruct (decide (a = addTfAction)) as [->|Hadd].
  { destruct (actionHandler_addTf_cases request s Ha)
      as [(msg & key & _ & Hout)|(n & fns & fp & tns & tp & Hc)].
    - apply Hnone. rewrite Hout. apply issued_same.
    - simpl in Hc. destruct Hc as (_ & _ & _ & _ & _ & Hout).
      rewrite Hout, issued_issue. simpl. split; [lia|].
      split; [done|]. split.
      + intros name H. apply list_elem_of_singleton in H. discriminate H.
      + intros H. apply list_elem_of_singleton in H. discriminate H. }
  destruct (decide (a = showGraphAction)) as [->|Hshow].
  { destruct (actionHandler_showGraph_cases request s Ha)
      as [Hout|(name & g & Hn & Hg & Hout)].
    - apply Hnone. rewrite Hout. apply issued_same.
    - assert (issued s (actionHandler Render request s) = [CallGet name])
        as ->.
      { rewrite Hout. destruct (Render g "dot").
        - unfold issued. simpl. by rewrite drop_app_length.
        - apply issued_issue_exit. }
      simpl. split; [lia|]. split; [|split].
      + intros tf H. apply list_elem_of_singleton in H. discriminate H.
      + intros name' H. apply list_elem_of_singleton in H.
        injection H as ->. done.
      + intros H. apply list_elem_of_singleton in H. discriminate H. }
  apply Hnone. rewrite (actionHandler_default request s a Ha Hadd Hshow).
  apply issued_same.
Qed.

(** X4: the handler changes the plugin's stored graph only in a show-graph
    action whose name lookup and rendering succeed, and the new value is the
    rendered text; every other run leaves the stored graph as it was. *)
Theorem actionHandler_graph_changes_only_on_show (request : ActionRequest)
  (s : Proc) :
  graph (final (actionHandler Render request s)) ≠ graph s →
  Payload_String (Payload request) "action" = Ok showGraphAction ∧
  ∃ name g,
    Payload_String (Payload request) "name" = Ok name ∧
    buildGraph name = Ok g ∧
    Render g "dot" = Ok (graph (final (actionHandler Render request s))).
Proof.
  intros Hchg.
  destruct (Payload_String (Payload request) "action") as [a|e] eqn:Ha.
  2:{ rewrite (actionHandler_no_action request s e Ha) in Hchg. done. }
  destruct (decide (a = addTfAction)) as [->|Hadd].
  { destruct (actionHandler_addTf_cases request s Ha)
      as [(msg & key & _ & Hout)|(n & fns & fp & tns & tp & Hc)].
    - rewrite Hout in Hchg. done.
    - simpl in Hc. destruct Hc as (_ & _ & _ & _ & _ & Hout).
      rewrite Hout in Hchg. done. }
  destruct (decide (a = showGraphAction)) as [->|Hshow].
  2:{ rewrite (actionHandler_default request s a Ha Hadd Hshow) in Hchg. done. }
  split; [done|].
  destruct (actionHandler_showGraph_cases request s Ha)
    as [Hout|(name & g & Hn & Hg & Hout)].
  - rewrite Hout in Hchg. done.
  - exists name, g. repeat (split; [done|]). rewrite Hout in *.
    destruct (Render g "dot") as [buf|err]; [done|]. done.
Qed.

(** X5: the process can end inside the handler only in the show-graph
    action, after the name lookup succeeded and the get call was issued; an
    add-traceflow request, an unknown action and a failed lookup always
    return to the host. *)
Theorem actionHandler_exits_only_on_show (request : ActionRequest) (s : Proc) :
  exited (actionHandler Render request s) = true →
  Payload_String (Payload request) "action" = Ok showGraphAction ∧
  ∃ name,
    Payload_String (Payload request) "name" = Ok name ∧
    issued s (actionHandler Render request s) = [CallGet name].
Proof.
  intros Hex.
  destruct (Payload_String (Payload request) "action") as [a|e] eqn:Ha.
  2:{ rewrite (actionHandler_no_action request s e Ha) in Hex. done. }
  destruct (decide (a = addTfAction)) as [->|Hadd].
  { destruct (actionHandler_addTf_cases request s Ha)
      as [(msg & key & _ & Hout)|(n & fns & fp & tns & tp & Hc)].
    - rewrite Hout in Hex. done.
    - simpl in Hc. destruct Hc as (_ & _ & _ & _ & _ & Hout).
      rewrite Hout in Hex. done. }
  destruct (decide (a = showGraphAction)) as [->|Hshow].
  2:{ rewrite (actionHandler_default request s a Ha Hadd Hshow) in Hex. done. }
  split; [done|].
  destruct (actionHandler_showGraph_cases request s Ha)
    as [Hout|(name & g & Hn & Hg & Hout)].
  - rewrite Hout in Hex. done.
  - exists name. split; [done|]. rewrite Hout in *.
    destruct (Render g "dot") as [buf|err]; [done|]. apply issued_issue_exit.
Qed.

(** X6: the handler reads the payload under the keys [action], [name],
    [fromNamespace], [fromPod], [toNamespace] and [toPod] only: two requests
    whose payloads agree on these six keys have the same outcome from the
    same state. *)
Theorem actionHandler_reads_six_keys (request1 request2 : ActionRequest)
  (s : Proc) :
  (∀ key, key ∈ "action" :: addTfKeys →
     Payload request1 !! key = Payload request2 !! key) →
  actionHandler Render request1 s = actionHandler Render request2 s.
Proof.
  intros Hagree.
  assert (∀ key, key ∈ "action" :: addTfKeys →
            Payload_String (Payload request1) key =
            Payload_String (Payload request2) key) as Hs.
  { intros key Hkey. unfold Payload_String. by rewrite (Hagree key Hkey). }
  unfold actionHandler. simpl.
  rewrite (Hs "action"), (Hs "name"), (Hs "fromNamespace"), (Hs "fromPod"),
    (Hs "toNamespace"), (Hs "toPod") by (unfold addTfKeys; in_list).
  reflexivity.
Qed.

(** X7: the actions that [main] registers are exactly the ones that the
    handler has a case for: a request with an action name gets the error
    "no handler defined" if and only if the name is not among the registered
    action names. *)
Theorem registered_actions_are_the_handled_ones (request : ActionRequest)
  (s : Proc) (actionName : string) :
  Payload_String (Payload request) "action" = Ok actionName →
  (actionName ∈ ActionNames capabilities ↔
   returnedError (actionHandler Render request s) ≠ Some noHandlerError).
Proof.
  intros Ha. simpl. rewrite !elem_of_cons, elem_of_nil. split.
  - intros [->|[->|[]]].
    + destruct (actionHandler_addTf_cases request s Ha)
        as [(msg & key & _ & Hout)|(n & fns & fp & tns & tp & Hc)].
      * rewrite Hout. simpl. discriminate.
      * simpl in Hc. destruct Hc as (_ & _ & _ & _ & _ & Hout).
        rewrite Hout. simpl.
        destruct (store_create _ _).2 as [|err] eqn:Hc; [discriminate|].
        apply store_create_error in Hc as [e ->]. discriminate.
    + destruct (actionHandler_showGraph_cases request s Ha)
        as [Hout|(name & g & Hn & Hg & Hout)]; rewrite Hout.
      * simpl. discriminate.
      * destruct (Render g "dot"); simpl; discriminate.
  - intros Hne.
    destruct (decide (actionName = addTfAction)) as [|Hadd]; [by left|].
    destruct (decide (actionName = showGraphAction)) as [|Hshow];
      [by right; left|].
    rewrite (actionHandler_default request s actionName Ha Hadd Hshow) in Hne.
    done.
Qed.

End Handler.

(** ** Further properties of the content page *)

Lemma traceflowHandler_ok (s : Proc) (items : list Traceflow) :
  store_list (cluster s) = Ok items →
  traceflowHandler s =
    Returned
      ({| Title := [Text "Antrea Traceflow"];
          Components :=
            [ FlexLayoutComponent "Antrea Traceflow"
                [ (WidthFull, formCard) ::
                  (if bool_decide (graph s ≠ "")
                   then [(WidthFull, graphCardOf (graph s))] else []) ];
              Table "Trace List" "" tfCols (tfRow <$> items) ];
          IconName := Some IconOverview;
          IconSource := Some IconOverview |}, None)
      (issue CallList s (cluster s)).
Proof.
  intros Hl. unfold traceflowHandler, bind, get_graph. simpl.
  case_bool_decide; simpl; by rewrite (getTfRows_ok _ _ Hl).
Qed.

Lemma traceflowHandler_fail (s : Proc) (err : Err) :
  store_list (cluster s) = Fail err →
  traceflowHandler s =
    Exited "Failed to get Traceflows " err (issue CallList s (cluster s)).
Proof.
  intros Hl. unfold traceflowHandler, bind, get_graph. simpl.
  case_bool_decide; simpl; by rewrite (getTfRows_fail _ _ Hl).
Qed.

(** X8: a render of the content page issues exactly one call against the
    store, the list call, whether that call succeeds or not, and leaves the
    plugin's stored graph as it was. *)
Theorem traceflowHandler_issues_one_list_call (s : Proc) :
  issued s (traceflowHandler s) = [CallList] ∧
  graph (final (traceflowHandler s)) = graph s.
Proof.
  destruct (store_list (cluster s)) as [items|err] eqn:Hl.
  - rewrite (traceflowHandler_ok s items Hl). split; [|reflexivity].
    apply issued_issue.
  - rewrite (traceflowHandler_fail s err Hl). split; [|reflexivity].
    apply issued_issue_exit.
Qed.

(** X9: what a render hands back, the response or the fatal message,
    depends on the process state only through the stored graph and the
    result of the list call: the calls issued before and the other state of
    the store do not show. *)
Theorem traceflowHandler_depends_on_graph_and_list (s1 s2 : Proc) :
  graph s1 = graph s2 →
  store_list (cluster s1) = store_list (cluster s2) →
  answer (traceflowHandler s1) = answer (traceflowHandler s2).
Proof.
  intros Hg Hl. destruct (store_list (cluster s2)) as [items|err] eqn:Hl2.
  - rewrite (traceflowHandler_ok s1 items Hl), (traceflowHandler_ok s2 items Hl2).
    simpl. by rewrite Hg.
  - by rewrite (traceflowHandler_fail s1 err Hl), (traceflowHandler_fail s2 err Hl2).
Qed.

(** X10: in every response the trace table and its rows fit: the table has
    the six columns, and each of its rows has a cell for every column of the
    table and no cell beyond them. *)
Theorem traceflowHandler_rows_fit_columns (s s' : Proc)
  (resp : ContentResponse) (e : option Err)
  (title placeholder : string) (cols : list string) (rows : list TableRow) :
  traceflowHandler s = Returned (resp, e) s' →
  Table title placeholder cols rows ∈ Components resp →
  length cols = 6 ∧ NoDup cols ∧
  Forall (λ row : TableRow, dom row = list_to_set cols) rows.
Proof.
  intros Hret Hin. destruct (store_list (cluster s)) as [items|err] eqn:Hl.
  2:{ rewrite (traceflowHandler_fail s err Hl) in Hret. discriminate Hret. }
  rewrite (traceflowHandler_ok s items Hl) in Hret.
  injection Hret as <- _ _. simpl in Hin.
  apply elem_of_cons in Hin as [Hin|Hin]; [discriminate Hin|].
  apply list_elem_of_singleton in Hin. injection Hin as -> -> -> ->.
  split; [reflexivity|]. split.
  - unfold tfCols, NewTableCols. apply NoDup_ListNoDup.
    repeat (constructor; [simpl; intuition discriminate|]). constructor.
  - apply Forall_fmap, Forall_forall. intros tf _. apply tfRow_dom.
Qed.

(** X11: a row shows the name, the source namespace and pod and the
    destination namespace and pod of its entity and nothing else of it: two
    entities have the same row if and only if they agree on these five
    fields, whatever their destination service, round id, packet and
    status. *)
Theorem tfRow_shows_five_fields (tf1 tf2 : Traceflow) :
  tfRow tf1 = tfRow tf2 ↔
  tfName tf1 = tfName tf2 ∧
  SrcNamespace tf1 = SrcNamespace tf2 ∧
  SrcPod tf1 = SrcPod tf2 ∧
  DstNamespace tf1 = DstNamespace tf2 ∧
  DstPod tf1 = DstPod tf2.
Proof.
  split.
  - intros Heq.
    pose proof (f_equal (λ row : TableRow, (λ col, row !! col) <$> tfCols) Heq)
      as Hcols.
    cbv beta in Hcols. rewrite !tfRow_columns in Hcols.
    injection Hcols as H1 H2 H3 H4 H5 _. done.
  - intros (H1 & H2 & H3 & H4 & H5). unfold tfRow.
    by rewrite H1, H2, H3, H4, H5.
Qed.

Example tfRow_ignores_status :
  tfRow tf_t1 = tfRow (newTraceflow "t1" "default" "pod-a" "default" "pod-b").
Proof. reflexivity. Qed.

(** ** Further properties of the graph *)

(** X12: for every name the graph that is built has no node twice, holds
    the node of the name and the node "m", and has exactly one edge, named
    and labelled "e", from the node of the name to the node "m". *)
Theorem buildGraph_one_edge (name : string) :
  ∃ g,
    buildGraph name = Ok g ∧
    NoDup (graphviz.nodes g) ∧
    name ∈ graphviz.nodes g ∧
    "m" ∈ graphviz.nodes g ∧
    graphviz.edges g =
      [{| graphviz.edgeName := "e"; graphviz.tail := name;
          graphviz.head := "m"; graphviz.label := "e" |}].
Proof.
  destruct (decide (name = "m")) as [->|Hne].
  - eexists. split; [apply buildGraph_m|]. simpl.
    split; [apply NoDup_singleton|]. split; [in_list|]. split; [in_list|done].
  - eexists. split; [by apply buildGraph_two_nodes|]. simpl.
    split; [|split; [in_list|split; [in_list|done]]].
    apply NoDup_cons. split; [|apply NoDup_singleton].
    intros H. apply list_elem_of_singleton in H. done.
Qed.

(** ** The page, its forms and the handler together *)

Section Page.

Variable Render : graphviz.Graph -> string -> result string.

Lemma answers_addTfForm (p : gmap string PayloadValue) :
  answers addTfForm p →
  Payload_String p "action" = Ok addTfAction ∧
  ∃ name fromNamespace fromPod toNamespace toPod,
    Payload_String p "name" = Ok name ∧
    Payload_String p "fromNamespace" = Ok fromNamespace ∧
    Payload_String p "fromPod" = Ok fromPod ∧
    Payload_String p "toNamespace" = Ok toNamespace ∧
    Payload_String p "toPod" = Ok toPod.
Proof.
  unfold answers, addTfForm. rewrite !Forall_cons. simpl.
  intros ([n Hn] & [fns Hfns] & [fp Hfp] & [tns Htns] & [tp Htp] & Ha & _).
  split; [done|]. by exists n, fns, fp, tns, tp.
Qed.

Lemma answers_graphForm (p : gmap string PayloadValue) :
  answers graphForm p →
  Payload_String p "action" = Ok showGraphAction ∧
  ∃ name, Payload_String p "name" = Ok name.
Proof.
  unfold answers, graphForm. rewrite !Forall_cons. simpl.
  intros ([n Hn] & Ha & _). split; [done|]. by exists n.
Qed.

(** X13: every form that a rendered page carries leads to the store: when
    a payload answers a form of the page, with a string for each text field
    and the hidden action of the form, the handler passes all its lookups
    and issues exactly one call, the create call for the five strings
    entered or the get call for the name entered. *)
Theorem page_forms_reach_the_store (s0 s0' s : Proc) (resp : ContentResponse)
  (e : option Err) (form : list FormField) (request : ActionRequest) :
  traceflowHandler s0 = Returned (resp, e) s0' →
  form ∈ (laidOut resp ≫= formsOf) →
  answers form (Payload request) →
  (∃ name fromNamespace fromPod toNamespace toPod,
     Payload_String (Payload request) "name" = Ok name ∧
     Payload_String (Payload request) "fromNamespace" = Ok fromNamespace ∧
     Payload_String (Payload request) "fromPod" = Ok fromPod ∧
     Payload_String (Payload request) "toNamespace" = Ok toNamespace ∧
     Payload_String (Payload request) "toPod" = Ok toPod ∧
     issued s (actionHandler Render request s) =
       [CallCreate (newTraceflow name fromNamespace fromPod
                                 toNamespace toPod)]) ∨
  (∃ name,
     Payload_String (Payload request) "name" = Ok name ∧
     issued s (actionHandler Render request s) = [CallGet name]).
Proof.
  intros Hret Hform Hans.
  destruct (store_list (cluster s0)) as [items|err] eqn:Hl.
  2:{ rewrite (traceflowHandler_fail s0 err Hl) in Hret. discriminate Hret. }
  rewrite (traceflowHandler_ok s0 items Hl) in Hret. injection Hret as <- _ _.
  assert (form = addTfForm ∨ form = graphForm) as [->| ->].
  { unfold laidOut in Hform. simpl in Hform.
    case_bool_decide; simpl in Hform;
      repeat (apply elem_of_cons in Hform as [Hform|Hform]; [by auto|]);
      by apply elem_of_nil in Hform. }
  - left. apply answers_addTfForm in Hans
      as (Ha & n & fns & fp & tns & tp & H1 & H2 & H3 & H4 & H5).
    exists n, fns, fp, tns, tp. repeat (split; [done|]).
    rewrite (actionHandler_addTf Render request s _ _ _ _ _ Ha H1 H2 H3 H4 H5).
    apply issued_issue.
  - right. apply answers_graphForm in Hans as (Ha & n & Hn).
    exists n. split; [done|].
    destruct (buildGraph_total n) as [g Hg].
    rewrite (actionHandler_showGraph Render request s n g Ha Hn Hg).
    destruct (Render g "dot").
    + unfold issued. simpl. by rewrite drop_app_length.
    + apply issued_issue_exit.
Qed.

(** X14: after a show-graph action whose rendering succeeded, the next
    render of the page lays out the form card followed by the graph card
    with the rendered text, or the form card alone when the rendered text is
    empty; the page issues the list call after the get call of the action. *)
Theorem showGraph_then_render (request : ActionRequest) (s : Proc)
  (name buf : string) (g : graphviz.Graph) (items : list Traceflow) :
  Payload_String (Payload request) "action" = Ok showGraphAction →
  Payload_String (Payload request) "name" = Ok name →
  buildGraph name = Ok g →
  Render g "dot" = Ok buf →
  store_list (cluster s) = Ok items →
  ∃ resp s',
    traceflowHandler (final (actionHandler Render request s)) =
      Returned (resp, None) s' ∧
    laidOut resp =
      formCard :: (if bool_decide (buf ≠ "") then [graphCardOf buf] else []) ∧
    calls s' = calls s ++ [CallGet name; CallList].
Proof.
  intros Ha Hn Hg Hbuf Hl.
  rewrite (actionHandler_showGraph Render request s name g Ha Hn Hg), Hbuf.
  simpl. eexists _, _. split.
  - apply traceflowHandler_ok. exact Hl.
  - unfold laidOut. simpl. split.
    + by case_bool_decide.
    + by rewrite <- app_assoc.
Qed.

End Page.

(** ** Start-up *)

Section StartupFacts.

Variable Config : Type.
Variable Getenv : string -> string.
Variable BuildConfigFromFlags : string -> string -> result Config.
Variable NewForConfig : Config -> result Store.

(** X15: a plugin that started was built from the configuration at the path
    in the environment variable KUBECONFIG; it has issued no call, and its
    first page, when the list call succeeds, lays out the form card alone,
    without a graph card. *)
Theorem started_plugin_shows_no_graph (s : Proc) (items : list Traceflow) :
  newTraceflowPlugin Config Getenv BuildConfigFromFlags NewForConfig
    = Started s →
  store_list (cluster s) = Ok items →
  (∃ config,
     BuildConfigFromFlags "" (Getenv "KUBECONFIG") = Ok config ∧
     NewForConfig config = Ok (cluster s)) ∧
  calls s = [] ∧
  ∃ resp s',
    traceflowHandler s = Returned (resp, None) s' ∧
    laidOut resp = [formCard] ∧
    includesGraphCard resp = false.
Proof.
  intros Hstart Hl. unfold newTraceflowPlugin, kubeConfig in Hstart.
  destruct (BuildConfigFromFlags "" (Getenv "KUBECONFIG")) as [config|e];
    [|discriminate Hstart].
  destruct (NewForConfig config) as [client|e] eqn:Hc; [|discriminate Hstart].
  injection Hstart as <-. simpl in *.
  split; [by exists config|]. split; [reflexivity|].
  eexists _, _. split; [apply traceflowHandler_ok; exact Hl|].
  by split.
Qed.

End StartupFacts.

(** ** Errors and effects *)

Section Effects.

Variable Render : graphviz.Graph -> string -> result string.

(** X1: an error that the handler returns is either the store's own, from
    the one create call of an add-traceflow request, or it comes with no
    effect at all: after a failed lookup or an unknown action the process
    state is as it was before the request. *)
Theorem handler_errors_have_no_partial_effect (request : ActionRequest)
  (s s' : Proc) (err : Err) :
  actionHandler Render request s = Returned (Some err) s' →
  (s' = s ∧ ∀ e, err ≠ ErrStore e) ∨
  (Payload_String (Payload request) "action" = Ok addTfAction ∧
   ∃ e tf,
     err = ErrStore e ∧
     issued s (actionHandler Render request s) = [CallCreate tf]).
Proof.
  intros Hret.
  destruct (Payload_String (Payload request) "action") as [a|e0] eqn:Ha.
  2:{ rewrite (actionHandler_no_action Render request s e0 Ha) in Hret.
      injection Hret as <- <-. left. by split. }
  destruct (decide (a = addTfAction)) as [->|Hadd].
  { destruct (actionHandler_addTf_cases Render request s Ha)
      as [(msg & key & _ & Hout)|(n & fns & fp & tns & tp & Hc)].
    - rewrite Hout in Hret. injection Hret as <- <-. left. by split.
    - simpl in Hc. destruct Hc as (_ & _ & _ & _ & _ & Hout).
      right. split; [done|]. rewrite Hout in Hret |- *.
      destruct (store_create _ _).2 as [|err'] eqn:Hc; [discriminate Hret|].
      injection Hret as <- _. apply store_create_error in Hc as [e ->].
      exists e. eexists. split; [done|]. apply issued_issue. }
  destruct (decide (a = showGraphAction)) as [->|Hshow].
  { destruct (actionHandler_showGraph_cases Render request s Ha)
      as [Hout|(name & g & Hn & Hg & Hout)]; rewrite Hout in Hret.
    - injection Hret as <- <-. left. by split.
    - destruct (Render g "dot"); discriminate Hret. }
  rewrite (actionHandler_default Render request s a Ha Hadd Hshow) in Hret.
  injection Hret as <- <-. left. by split.
Qed.

End Effects.

(** ** The further properties at concrete requests *)

Lemma handler_errors_have_no_partial_effect_witness :
  actionHandler sampleRender noToNamespaceRequest procOne =
    Returned (Some (ErrWrap "unable to get toNamespace at string : "
                            (ErrPayload "toNamespace"))) procOne ∧
  ((procOne = procOne ∧
    ∀ e, ErrWrap "unable to get toNamespace at string : "
                 (ErrPayload "toNamespace") ≠ ErrStore e) ∨
   (Payload_String (Payload noToNamespaceRequest) "action" = Ok addTfAction ∧
    ∃ e tf,
      ErrWrap "unable to get toNamespace at string : "
              (ErrPayload "toNamespace") = ErrStore e ∧
      issued procOne (actionHandler sampleRender noToNamespaceRequest procOne)
        = [CallCreate tf])).
Proof.
  split; [reflexivity|].
  apply (handler_errors_have_no_partial_effect sampleRender
           noToNamespaceRequest procOne procOne). reflexivity.
Defined.

Example conflict_is_the_stores_error :
  actionHandler sampleRender t1Request procOne =
    Returned (Some (ErrStore ConflictError))
             (issue (CallCreate
                       (newTraceflow "t1" "default" "pod-a" "default" "pod-b"))
                    procOne (cluster procOne)).
Proof. reflexivity. Qed.

Lemma addTf_reports_first_failed_key_witness :
  Payload_String (Payload noToNamespaceRequest) "action" = Ok addTfAction ∧
  addTfKeys !! 3 = Some "toNamespace" ∧
  (∀ j earlier, j < 3 → addTfKeys !! j = Some earlier →
     ∃ v, Payload_String (Payload noToNamespaceRequest) earlier = Ok v) ∧
  Payload_String (Payload noToNamespaceRequest) "toNamespace" =
    Fail (ErrPayload "toNamespace") ∧
  actionHandler sampleRender noToNamespaceRequest procOne =
    Returned (Some (ErrWrap ("unable to get " +:+ "toNamespace" +:+
                             " at string : ")
                            (ErrPayload "toNamespace"))) procOne.
Proof.
  assert (∀ j earlier, j < 3 → addTfKeys !! j = Some earlier →
            ∃ v, Payload_String (Payload noToNamespaceRequest) earlier = Ok v)
    as Hearlier.
  { intros j earlier Hj Hk.
    destruct j as [|[|[|j]]]; [injection Hk as <- ..|lia];
      eexists; reflexivity. }
  split; [reflexivity|]. split; [reflexivity|]. split; [exact Hearlier|].
  split; [reflexivity|].
  exact (addTf_reports_first_failed_key sampleRender noToNamespaceRequest
           procOne 3 "toNamespace" (ErrPayload "toNamespace")
           eq_refl eq_refl Hearlier eq_refl).
Defined.

Lemma actionHandler_graph_changes_only_on_show_witness :
  graph (final (actionHandler sampleRender (showGraphRequest "t1") procOne))
    ≠ graph procOne ∧
  Payload_String (Payload (showGraphRequest "t1")) "action"
    = Ok showGraphAction ∧
  ∃ name g,
    Payload_String (Payload (showGraphRequest "t1")) "name" = Ok name ∧
    buildGraph name = Ok g ∧
    sampleRender g "dot" =
      Ok (graph (final (actionHandler sampleRender (showGraphRequest "t1")
                          procOne))).
Proof.
  assert (graph (final (actionHandler sampleRender (showGraphRequest "t1")
                          procOne)) ≠ graph procOne) as Hchg
    by (vm_compute; discriminate).
  split; [exact Hchg|].
  exact (actionHandler_graph_changes_only_on_show sampleRender
           (showGraphRequest "t1") procOne Hchg).
Defined.

Lemma actionHandler_exits_only_on_show_witness :
  exited (actionHandler failingRender (showGraphRequest "t1") procOne) = true ∧
  Payload_String (Payload (showGraphRequest "t1")) "action"
    = Ok showGraphAction ∧
  ∃ name,
    Payload_String (Payload (showGraphRequest "t1")) "name" = Ok name ∧
    issued procOne (actionHandler failingRender (showGraphRequest "t1") procOne)
      = [CallGet name].
Proof.
  split; [reflexivity|].
  apply (actionHandler_exits_only_on_show failingRender
           (showGraphRequest "t1") procOne). reflexivity.
Defined.

Lemma actionHandler_reads_six_keys_witness :
  (∀ key, key ∈ "action" :: addTfKeys →
     Payload noisyRequest !! key = Payload t1Request !! key) ∧
  Payload noisyRequest !! "namespace" ≠ Payload t1Request !! "namespace" ∧
  actionHandler sampleRender noisyRequest procEmpty =
    actionHandler sampleRender t1Request procEmpty.
Proof.
  assert (∀ key, key ∈ "action" :: addTfKeys →
            Payload noisyRequest !! key = Payload t1Request !! key) as Hagree.
  { intros key Hkey. unfold addTfKeys in Hkey.
    repeat (apply elem_of_cons in Hkey as [->|Hkey]; [reflexivity|]).
    by apply elem_of_nil in Hkey. }
  split; [exact Hagree|]. split; [vm_compute; discriminate|].
  exact (actionHandler_reads_six_keys sampleRender noisyRequest t1Request
           procEmpty Hagree).
Defined.

Lemma registered_actions_are_the_handled_ones_witness :
  Payload_String (Payload deleteRequest) "action"
    = Ok "traceflowPlugin/deleteTf" ∧
  ("traceflowPlugin/deleteTf" ∈ ActionNames capabilities ↔
   returnedError (actionHandler sampleRender deleteRequest procOne)
     ≠ Some noHandlerError).
Proof.
  split; [reflexivity|].
  apply (registered_actions_are_the_handled_ones sampleRender deleteRequest
           procOne "traceflowPlugin/deleteTf"). reflexivity.
Defined.

Lemma traceflowHandler_depends_on_graph_and_list_witness :
  graph procOne = graph (issue (CallGet "t1") procOne (cluster procOne)) ∧
  store_list (cluster procOne) =
    store_list (cluster (issue (CallGet "t1") procOne (cluster procOne))) ∧
  answer (traceflowHandler procOne) =
    answer (traceflowHandler
              (issue (CallGet "t1") procOne (cluster procOne))).
Proof.
  split; [reflexivity|]. split; [reflexivity|].
  apply (traceflowHandler_depends_on_graph_and_list procOne
           (issue (CallGet "t1") procOne (cluster procOne))); reflexivity.
Defined.

Lemma traceflowHandler_rows_fit_columns_witness :
  ∃ resp s',
    traceflowHandler procOne = Returned (resp, None) s' ∧
    Table "Trace List" "" tfCols [tfRow tf_t1] ∈ Components resp ∧
    length tfCols = 6 ∧ NoDup tfCols ∧
    Forall (λ row : TableRow, dom row = list_to_set tfCols) [tfRow tf_t1].
Proof.
  eexists _, _.
  assert (store_list (cluster procOne) = Ok [tf_t1]) as Hl by reflexivity.
  pose proof (traceflowHandler_ok procOne [tf_t1] Hl) as Hret.
  split; [exact Hret|].
  assert (Table "Trace List" "" tfCols [tfRow tf_t1] ∈
            [ FlexLayoutComponent "Antrea Traceflow"
                [ (WidthFull, formCard) ::
                  (if bool_decide (graph procOne ≠ "")
                   then [(WidthFull, graphCardOf (graph procOne))] else []) ];
              Table "Trace List" "" tfCols (tfRow <$> [tf_t1]) ]) as Hin
    by in_list.
  split; [exact Hin|].
  exact (traceflowHandler_rows_fit_columns procOne _ _ None
           "Trace List" "" tfCols [tfRow tf_t1] Hret Hin).
Defined.

Lemma page_forms_reach_the_store_witness :
  ∃ resp s0',
    traceflowHandler procOne = Returned (resp, None) s0' ∧
    addTfForm ∈ (laidOut resp ≫= formsOf) ∧
    answers addTfForm (Payload t1Request) ∧
    ((∃ name fromNamespace fromPod toNamespace toPod,
        Payload_String (Payload t1Request) "name" = Ok name ∧
        Payload_String (Payload t1Request) "fromNamespace" = Ok fromNamespace ∧
        Payload_String (Payload t1Request) "fromPod" = Ok fromPod ∧
        Payload_String (Payload t1Request) "toNamespace" = Ok toNamespace ∧
        Payload_String (Payload t1Request) "toPod" = Ok toPod ∧
        issued procEmpty (actionHandler sampleRender t1Request procEmpty) =
          [CallCreate (newTraceflow name fromNamespace fromPod
                                    toNamespace toPod)]) ∨
     (∃ name,
        Payload_String (Payload t1Request) "name" = Ok name ∧
        issued procEmpty (actionHandler sampleRender t1Request procEmpty)
          = [CallGet name])).
Proof.
  eexists _, _.
  assert (store_list (cluster procOne) = Ok [tf_t1]) as Hl by reflexivity.
  pose proof (traceflowHandler_ok procOne [tf_t1] Hl) as Hret.
  split; [exact Hret|].
  assert (answers addTfForm (Payload t1Request)) as Hans.
  { unfold answers, addTfForm.
    repeat (apply Forall_cons; split; [simpl; try eexists; reflexivity|]).
    apply Forall_nil_2. }
  match goal with
  | |- ?P ∧ _ => assert P as Hform by (vm_compute; in_list)
  end.
  split; [exact Hform|]. split; [exact Hans|].
  exact (page_forms_reach_the_store sampleRender procOne _ procEmpty _ None
           addTfForm t1Request Hret Hform Hans).
Defined.

Lemma showGraph_then_render_witness :
  Payload_String (Payload (showGraphRequest "t1")) "action"
    = Ok showGraphAction ∧
  Payload_String (Payload (showGraphRequest "t1")) "name" = Ok "t1" ∧
  buildGraph "t1" =
    Ok {| graphviz.nodes := ["t1"; "m"];
          graphviz.edges :=
            [{| graphviz.edgeName := "e"; graphviz.tail := "t1";
                graphviz.head := "m"; graphviz.label := "e" |}] |} ∧
  sampleRender
    {| graphviz.nodes := ["t1"; "m"];
       graphviz.edges :=
         [{| graphviz.edgeName := "e"; graphviz.tail := "t1";
             graphviz.head := "m"; graphviz.label := "e" |}] |} "dot"
    = Ok "t1 m t1->m" ∧
  store_list (cluster procOne) = Ok [tf_t1] ∧
  ∃ resp s',
    traceflowHandler
      (final (actionHandler sampleRender (showGraphRequest "t1") procOne)) =
      Returned (resp, None) s' ∧
    laidOut resp =
      formCard :: (if bool_decide ("t1 m t1->m" ≠ "")
                   then [graphCardOf "t1 m t1->m"] else []) ∧
    calls s' = calls procOne ++ [CallGet "t1"; CallList].
Proof.
  do 5 (split; [reflexivity|]).
  apply (showGraph_then_render sampleRender (showGraphRequest "t1") procOne
           "t1" "t1 m t1->m"
           {| graphviz.nodes := ["t1"; "m"];
              graphviz.edges :=
                [{| graphviz.edgeName := "e"; graphviz.tail := "t1";
                    graphviz.head := "m"; graphviz.label := "e" |}] |}
           [tf_t1]); reflexivity.
Defined.

Lemma started_plugin_shows_no_graph_witness :
  newTraceflowPlugin string sampleGetenv sampleBuildConfig sampleNewForConfig
    = Started procOne ∧
  store_list (cluster procOne) = Ok [tf_t1] ∧
  (∃ config,
     sampleBuildConfig "" (sampleGetenv "KUBECONFIG") = Ok config ∧
     sampleNewForConfig config = Ok (cluster procOne)) ∧
  calls procOne = [] ∧
  ∃ resp s',
    traceflowHandler procOne = Returned (resp, None) s' ∧
    laidOut resp = [formCard] ∧
    includesGraphCard resp = false.
Proof.
  do 2 (split; [reflexivity|]).
  apply (started_plugin_shows_no_graph string sampleGetenv sampleBuildConfig
           sampleNewForConfig procOne [tf_t1]); reflexivity.
Defined.

Example startup_without_configuration :
  newTraceflowPlugin string (λ _, "") sampleBuildConfig sampleNewForConfig =
    StartFailed "Failed to build kubeConfig " (ErrString "no configuration").
Proof. reflexivity. Qed.
